(** * ugf: stored search patterns resolved into a search-engine invocation

    A shallow embedding of [ugf.go] and the properties of its pattern
    decoding, pattern resolution, command synthesis and pattern store.

    Go strings are byte sequences: they are modelled by [string], whose
    characters ([ascii]) are exactly the 256 byte values. *)

From Stdlib Require Import NArith ZArith Ascii String List Bool Lia.
From stdpp Require Import base strings gmap.
Import ListNotations.

Local Open Scope string_scope.
Local Open Scope list_scope.

(** * Library functions used by the program *)

(** ** Byte strings *)

Module Str.

(** [s[n:]] for [n <= len(s)]. *)
Fixpoint drop (n : nat) (s : string) : string :=
  match n, s with
  | O, _ => s
  | S _, EmptyString => EmptyString
  | S k, String _ t => drop k t
  end.

(** [s[:n]] for [n <= len(s)]. *)
Fixpoint take (n : nat) (s : string) : string :=
  match n, s with
  | O, _ => EmptyString
  | S _, EmptyString => EmptyString
  | S k, String c t => String c (take k t)
  end.

End Str.

(** ** unicode/utf8 *)

Module utf8.

Definition RuneError : N := 0xFFFD.

(** The entries of the table [first]: an ASCII byte, an invalid first
    byte, or the first byte of a sequence of [size] bytes whose second
    byte has to lie in [lo..hi]. *)
Inductive firstInfo :=
| AS
| XX
| SZ (size : nat) (lo hi : N).

Definition first (b : N) : firstInfo :=
  if (b <? 0x80)%N then AS
  else if (b <? 0xC2)%N then XX
  else if (b <? 0xE0)%N then SZ 2 0x80 0xBF
  else if (b =? 0xE0)%N then SZ 3 0xA0 0xBF
  else if (b <? 0xED)%N then SZ 3 0x80 0xBF
  else if (b =? 0xED)%N then SZ 3 0x80 0x9F
  else if (b <? 0xF0)%N then SZ 3 0x80 0xBF
  else if (b =? 0xF0)%N then SZ 4 0x90 0xBF
  else if (b <? 0xF4)%N then SZ 4 0x80 0xBF
  else if (b =? 0xF4)%N then SZ 4 0x80 0x8F
  else XX.

(** A continuation byte lies in [locb..hicb]. *)
Definition locb : N := 0x80.
Definition hicb : N := 0xBF.

Definition outside (lo hi b : N) : bool := (b <? lo)%N || (hi <? b)%N.

Definition bits (mask : N) (c : ascii) : N := N.land (N_of_ascii c) mask.

(** [utf8.DecodeRuneInString]: the first rune of [s] and its width in
    bytes; [(RuneError, 1)] for an encoding that is invalid or cut
    short, [(RuneError, 0)] for the empty string. *)
Definition DecodeRuneInString (s : string) : N * nat :=
  match s with
  | EmptyString => (RuneError, 0)
  | String c0 t0 =>
    match first (N_of_ascii c0) with
    | AS => (N_of_ascii c0, 1)
    | XX => (RuneError, 1)
    | SZ sz lo hi =>
      if (String.length s <? sz)%nat then (RuneError, 1) else
      match t0 with
      | EmptyString => (RuneError, 1)
      | String c1 t1 =>
        if outside lo hi (N_of_ascii c1) then (RuneError, 1)
        else if (sz <=? 2)%nat then
          (N.lor (N.shiftl (bits 0x1F c0) 6) (bits 0x3F c1), 2)
        else
          match t1 with
          | EmptyString => (RuneError, 1)
          | String c2 t2 =>
            if outside locb hicb (N_of_ascii c2) then (RuneError, 1)
            else if (sz <=? 3)%nat then
              (N.lor (N.lor (N.shiftl (bits 0x0F c0) 12)
                            (N.shiftl (bits 0x3F c1) 6))
                     (bits 0x3F c2), 3)
            else
              match t2 with
              | EmptyString => (RuneError, 1)
              | String c3 _ =>
                if outside locb hicb (N_of_ascii c3) then (RuneError, 1)
                else
                  (N.lor (N.lor (N.lor (N.shiftl (bits 0x07 c0) 18)
                                       (N.shiftl (bits 0x3F c1) 12))
                                (N.shiftl (bits 0x3F c2) 6))
                         (bits 0x3F c3), 4)
              end
          end
      end
    end
  end.

(** [for i, r := range s]: the runes of [s] in order, each with the
    bytes it was decoded from.  [fuel] bounds the number of iterations;
    every iteration consumes at least one byte, so [length s] is
    enough. *)
Fixpoint range_fuel (fuel : nat) (s : string) : list (N * string) :=
  match fuel with
  | O => []
  | S k =>
    match s with
    | EmptyString => []
    | String _ _ =>
      let '(r, size) := DecodeRuneInString s in
      (r, Str.take size s) :: range_fuel k (Str.drop size s)
    end
  end.

Definition range (s : string) : list (N * string) :=
  range_fuel (String.length s) s.

End utf8.

(** ** unicode and strings *)

Module unicode.

Definition MaxLatin1 : N := 0xFF.

(** [unicode.IsSpace]: the Latin-1 switch, then the [White_Space] range
    table above Latin-1. *)
Definition IsSpace (r : N) : bool :=
  if (r <=? MaxLatin1)%N then
    (r =? 0x09)%N || (r =? 0x0A)%N || (r =? 0x0B)%N || (r =? 0x0C)%N
    || (r =? 0x0D)%N || (r =? 0x20)%N || (r =? 0x85)%N || (r =? 0xA0)%N
  else
    (r =? 0x1680)%N
    || ((0x2000 <=? r)%N && (r <=? 0x200A)%N)
    || ((0x2028 <=? r)%N && (r <=? 0x2029)%N)
    || (r =? 0x202F)%N || (r =? 0x205F)%N || (r =? 0x3000)%N.

End unicode.

Module strings.

(** The loop of [strings.FieldsFunc]: [cur] is the field being read
    ([start >= 0] in the source), [None] between fields. *)
Fixpoint fieldsLoop (f : N -> bool) (rs : list (N * string))
         (cur : option string) : list string :=
  match rs with
  | [] => match cur with Some w => [w] | None => [] end
  | (r, bytes) :: rs' =>
    if f r then
      match cur with
      | Some w => w :: fieldsLoop f rs' None
      | None => fieldsLoop f rs' None
      end
    else
      fieldsLoop f rs'
        (Some (match cur with Some w => w +:+ bytes | None => bytes end))
  end.

Definition FieldsFunc (s : string) (f : N -> bool) : list string :=
  fieldsLoop f (utf8.range s) None.

(** [strings.Fields]: the maximal runs of non-space runes of [s].  (The
    source has a fast path for ASCII strings that gives the same
    result.) *)
Definition Fields (s : string) : list string :=
  FieldsFunc s unicode.IsSpace.

(** [strings.Join(elems, sep)]. *)
Fixpoint Join (elems : list string) (sep : string) : string :=
  match elems with
  | [] => ""
  | [e] => e
  | e :: rest => e +:+ sep +:+ Join rest sep
  end.

End strings.

(** ** encoding/json

    The decoder is modelled on parsed input.  [json] is a JSON value as
    it is stored in an [interface{}].  A number is kept as its literal,
    which is taken to fit a [float64] (the decoder rejects a literal
    beyond that range, such as [1e999], wherever it occurs). *)

#[local] Unset Elimination Schemes.
Inductive json :=
| JNull
| JBool (b : bool)
| JNumber (lit : string)
| JString (s : string)
| JArray (elems : list json)
| JObject (members : list (string * json)).
#[local] Set Elimination Schemes.

(** A top-level JSON object as the decoder sees it when it fills a
    struct with the fields [flags], [pattern], [patterns] and [engine]:
    for each field the value of the member whose name matches it, [None]
    when there is none.  Members that match no field are skipped by the
    decoder and are left out.  Objects in which two members match the
    same field are not represented. *)
Record object := {
  m_flags : option json;
  m_pattern : option json;
  m_patterns : option json;
  m_engine : option json
}.

(** A top-level JSON value: [null], an object, or anything else (a
    boolean, number, string or array). *)
Inductive document :=
| DocNull
| DocObject (o : object)
| DocOther.

(** What a file holds: bytes that do not start with a JSON value (an
    empty or truncated file among them), or a JSON value. *)
Inductive content :=
| NotJSON
| JSON (d : document).

(** Decoding a member into an [interface{}] field that holds [old]
    ([None] is the nil interface): every value is accepted, [null]
    gives nil. *)
Definition storeInterface (old : option json) (m : option json)
  : option json :=
  match m with
  | None => old
  | Some JNull => None
  | Some v => Some v
  end.

(** Decoding a member into a [string] field that holds [old]: [null]
    leaves the field as it is, a value that is not a string is a type
    error ([None]). *)
Definition storeString (old : string) (m : option json) : option string :=
  match m with
  | None => Some old
  | Some JNull => Some old
  | Some (JString s) => Some s
  | Some _ => None
  end.

(** Decoding the elements of an array into a fresh [[]string]: a
    [null] element leaves the zero value. *)
Fixpoint storeElems (elems : list json) : option (list string) :=
  match elems with
  | [] => Some []
  | e :: rest =>
    match storeString "" (Some e), storeElems rest with
    | Some s, Some ss => Some (s :: ss)
    | _, _ => None
    end
  end.

(** Decoding a member into a [[]string] field that holds [old] and has
    not been decoded into before: [null] sets it to nil. *)
Definition storeStrings (old : list string) (m : option json)
  : option (list string) :=
  match m with
  | None => Some old
  | Some JNull => Some []
  | Some (JArray elems) => storeElems elems
  | Some _ => None
  end.

(** * The program *)

(** [type pattern struct].  A nil slice and an empty one are not told
    apart: the program only ranges over them and takes their length. *)
Record pattern := {
  Flags : list string;
  Pattern : string;
  Patterns : list string;
  Engine : string
}.

(** [pattern{}]. *)
Definition zero : pattern :=
  {| Flags := []; Pattern := ""; Patterns := []; Engine := "" |}.

(** The anonymous struct [aux] of [UnmarshalJSON]: its own [Flags
    interface{}] ([None] is nil) hides the [Flags] of the embedded
    [*Alias], so the member [flags] is decoded into the former while
    [pattern], [patterns] and [engine] go through [Alias] into [p]. *)
Record auxT := {
  aux_Flags : option json;
  aux_Alias : pattern
}.

(** The result of [json.Unmarshal(data, &aux)]: an error, [aux] set to
    nil (by a top-level [null]) or [aux] filled in. *)
Inductive unmarshalled :=
| UErr
| UNil
| UOk (aux : auxT).

Definition Unmarshal (data : document) (aux : auxT) : unmarshalled :=
  match data with
  | DocNull => UNil
  | DocOther => UErr
  | DocObject o =>
    let p := aux_Alias aux in
    match storeString (Pattern p) (m_pattern o),
          storeStrings (Patterns p) (m_patterns o),
          storeString (Engine p) (m_engine o) with
    | Some pat, Some pats, Some eng =>
      UOk {| aux_Flags := storeInterface (aux_Flags aux) (m_flags o);
             aux_Alias := {| Flags := Flags p; Pattern := pat;
                             Patterns := pats; Engine := eng |} |}
    | _, _, _ => UErr
    end
  end.

(** What a call can come to: a value, an error, or a run-time panic. *)
Inductive outcome (E A : Type) :=
| Ok (a : A)
| Err (e : E)
| Panic.
Arguments Ok {E A} a.
Arguments Err {E A} e.
Arguments Panic {E A}.

(** The errors of the decoder: input that is no JSON value, or a value of
    the wrong type for its destination. *)
Inductive jsonError :=
| SyntaxError
| UnmarshalTypeError.

(** [for _, f := range v { if s, ok := f.(string); ok { ... } }]. *)
Fixpoint stringElems (v : list json) : list string :=
  match v with
  | [] => []
  | JString s :: rest => s :: stringElems rest
  | _ :: rest => stringElems rest
  end.

(** [func (p *pattern) UnmarshalJSON(data []byte) error], on the value
    [p] points to: the new value of [*p] on success (after an error the
    caller does not look at [*p] again).  After a top-level [null] the
    field access [aux.Flags] dereferences nil. *)
Definition UnmarshalJSON (p : pattern) (data : document)
  : outcome jsonError pattern :=
  match Unmarshal data {| aux_Flags := None; aux_Alias := p |} with
  | UErr => Err UnmarshalTypeError
  | UNil => Panic
  | UOk aux =>
    let p := aux_Alias aux in
    match aux_Flags aux with
    | Some (JString v) =>
      if String.eqb v "" then Ok p
      else Ok {| Flags := strings.Fields v; Pattern := Pattern p;
                 Patterns := Patterns p; Engine := Engine p |}
    | Some (JArray v) =>
      Ok {| Flags := stringElems v; Pattern := Pattern p;
            Patterns := Patterns p; Engine := Engine p |}
    | _ => Ok p
    end
  end.

(** [json.NewDecoder(f).Decode(&pat)] on a file that holds [c]. *)
Definition Decode (c : content) (pat : pattern) : outcome jsonError pattern :=
  match c with
  | NotJSON => Err SyntaxError
  | JSON d => UnmarshalJSON pat d
  end.

(** ** The system the program runs in *)

(** A path names a directory or a file. *)
Inductive node :=
| Dir
| File (c : content).

(** What the decoder reads from an open path: reading a directory fails,
    which the decoder reports as it reports bytes that are no JSON. *)
Definition contentOf (n : node) : content :=
  match n with
  | File c => c
  | Dir => NotJSON
  end.

(** Why [os.OpenFile] with [O_CREATE|O_EXCL] fails: the path exists
    already, or the file cannot be created there. *)
Inductive openError :=
| ErrExist
| ErrOther.

(** The errors the program reports, each with the text it prints. *)
Inductive error :=
| NameEmpty                     (* name cannot be empty *)
| PatternEmpty                  (* pattern cannot be empty *)
| DirectoryResolutionFailure    (* failed to determine pattern directory: ...
                                   unable to open user's pattern directory *)
| CreateFailure (e : openError) (* failed to create pattern file: ... *)
| WriteFailure                  (* failed to write pattern file: ... *)
| GlobFailure                   (* the error of filepath.Glob *)
| NoSuchPattern                 (* no such pattern *)
| MalformedRecord (filename : string)
                                (* pattern file '...' is malformed: ... *)
| EmptyPattern (filename : string).
                                (* pattern file '...' contains no pattern(s) *)

(** Saving over an existing record. *)
Definition NameCollision : error := CreateFailure ErrExist.

(** What the program does to its surroundings, in order. *)
Inductive event :=
| CallCurrent                               (* user.Current() *)
| CallStat (path : string)                  (* os.Stat *)
| CallOpen (path : string)                  (* os.Open *)
| CallOpenFile (path : string)              (* os.OpenFile, O_CREATE|O_EXCL *)
| CallWrite (path : string)                 (* the write of enc.Encode *)
| CallGlob (pat : string)                   (* filepath.Glob *)
| CallStdinStat                             (* os.Stdin.Stat() *)
| Stderr (e : error)                        (* a line on os.Stderr *)
| Stdout (text : string)                    (* text on os.Stdout *)
| Run (operator : string) (args : list string)  (* exec.Command(...).Run() *)
| Panicked.

Record world := {
  (** the home directory of the current user, [None] when
      [user.Current] fails *)
  home : option string;
  (** what each path names *)
  fs : gmap string node;
  (** whether a new file can be created at a path that names nothing *)
  creatable : string -> bool;
  (** whether writing to a file succeeds *)
  writable : bool;
  (** whether standard input is something other than a character
      device *)
  stdin_pipe : bool;
  (** the events so far, oldest first *)
  trace : list event
}.

Definition emit (e : event) (w : world) : world :=
  {| home := home w; fs := fs w; creatable := creatable w;
     writable := writable w; stdin_pipe := stdin_pipe w;
     trace := trace w ++ [e] |}.

Definition set_fs (m : gmap string node) (w : world) : world :=
  {| home := home w; fs := m; creatable := creatable w;
     writable := writable w; stdin_pipe := stdin_pipe w;
     trace := trace w |}.

(** Computations that read and change the world. *)
Definition M (A : Type) : Type := world -> A * world.

Definition ret {A} (a : A) : M A := fun w => (a, w).

Definition bind {A B} (m : M A) (k : A -> M B) : M B :=
  fun w => let '(a, w') := m w in k a w'.

Notation "x <- m ;; k" := (bind m (fun x => k))
  (at level 100, m at next level, right associativity).
Notation "m ;;; k" := (bind m (fun _ => k))
  (at level 100, right associativity).

Definition log (e : event) : M unit := fun w => (tt, emit e w).

(** The newline. *)
Definition nl : string := String (ascii_of_nat 10) "".

(** The encoding of U+FFFD, which the JSON encoder writes for every byte
    that is not part of a valid UTF-8 sequence. *)
Definition replacement : string :=
  String (ascii_of_nat 239) (String (ascii_of_nat 191)
         (String (ascii_of_nat 189) "")).

(** A string as it reads back after the JSON encoder has written it. *)
Definition encoded (s : string) : string :=
  fold_right
    (fun '(r, bytes) acc =>
       (if (r =? utf8.RuneError)%N && (String.length bytes =? 1)%nat
        then replacement else bytes) +:+ acc)
    "" (utf8.range s).

(** The object [enc.Encode(p)] writes; every field is [omitempty]. *)
Definition Marshal (p : pattern) : object :=
  let str s := if String.eqb s "" then None else Some (JString (encoded s)) in
  let strs l :=
    match l with
    | [] => None
    | _ => Some (JArray (map (fun s => JString (encoded s)) l))
    end in
  {| m_flags := strs (Flags p); m_pattern := str (Pattern p);
     m_patterns := strs (Patterns p); m_engine := str (Engine p) |}.

(** [s[lo:hi]], which panics ([None]) unless [0 <= lo <= hi <= len(s)]. *)
Definition slice (s : string) (lo hi : Z) : option string :=
  if ((0 <=? lo) && (lo <=? hi) && (hi <=? Z.of_nat (String.length s)))%Z
  then Some (Str.take (Z.to_nat (hi - lo)) (Str.drop (Z.to_nat lo) s))
  else None.

(** The command line after [flag.Parse()]. *)
Record cli := {
  saveMode : bool;
  listMode : bool;
  dumpMode : bool;
  args : list string
}.

(** [flag.Arg(i)]: the empty string when there is no such argument. *)
Definition Arg (c : cli) (i : nat) : string := nth i (args c) "".

(** *** Pattern resolution and command synthesis ([main], lines 113-159) *)

(** Lines 113-120: the effective pattern, [None] when the record holds
    no pattern at all. *)
Definition effectivePattern (pat : pattern) : option string :=
  if String.eqb (Pattern pat) "" then
    if (length (Patterns pat) =? 0)%nat then None
    else Some ("(" +:+ strings.Join (Patterns pat) "|" +:+ ")")
  else Some (Pattern pat).

(** Lines 122-125. *)
Definition operatorOf (pat : pattern) : string :=
  if String.eqb (Engine pat) "" then "ugrep" else Engine pat.

(** The test [operator == "ugrep" && len(pat.Patterns) > 0]. *)
Definition multi (operator : string) (pat : pattern) : bool :=
  String.eqb operator "ugrep" && (0 <? length (Patterns pat))%nat.

(** [for _, p := range pat.Patterns { args = append(args, "-e", p) }]. *)
Fixpoint appendExprs (args : list string) (patterns : list string)
  : list string :=
  match patterns with
  | [] => args
  | p :: rest => appendExprs (args ++ ["-e"; p]) rest
  end.

(** Lines 128-141: the line printed by [-dump]; [pattern] is the
    effective pattern and [Quote] renders the verb [%q]. *)
Definition dumpLine (Quote : string -> string) (operator : string)
           (pat : pattern) (pattern files : string) : string :=
  if multi operator pat then
    let args := [] in
    let args := args ++ Flags pat in
    let args := appendExprs args (Patterns pat) in
    let args := if negb (String.eqb files "") then args ++ [files]
                else args in
    operator +:+ " " +:+ strings.Join args " " +:+ nl
  else
    operator +:+ " " +:+ strings.Join (Flags pat) " " +:+ " "
             +:+ Quote pattern +:+ " " +:+ files +:+ nl.

(** Lines 144-159: the arguments of the command that is run; [pipe] is
    the result of [stdinIsPipe()]. *)
Definition realArgs (operator : string) (pat : pattern)
           (pattern files : string) (pipe : bool) : list string :=
  let args := [] in
  if multi operator pat then
    let args := args ++ Flags pat in
    let args := appendExprs args (Patterns pat) in
    if negb pipe && negb (String.eqb files "") then args ++ [files]
    else args
  else
    let args := args ++ Flags pat in
    let args := args ++ [pattern] in
    if negb pipe && negb (String.eqb files "") then args ++ [files]
    else args.

(** *** The functions of the program *)

Section Program.

(** Three library functions are parameters, so that what is proved
    holds whatever they return: [filepath.Join] (of two elements),
    [strconv.Quote] (the verb [%q]) and [filepath.Glob] (the matching
    paths in a file system, [None] for a malformed pattern). *)
Variable Join : string -> string -> string.
Variable Quote : string -> string.
Variable Glob : gmap string node -> string -> option (list string).

(** [user.Current()], with [usr.HomeDir] as its result. *)
Definition user_Current : M (option string) :=
  fun w => (home w, emit CallCurrent w).

(** [os.Stat(path)]: whether its error satisfies [os.IsNotExist]. *)
Definition os_Stat (path : string) : M bool :=
  fun w => (match fs w !! path with None => true | Some _ => false end,
            emit (CallStat path) w).

(** [os.Open(path)]: what was opened, [None] when the path names
    nothing. *)
Definition os_Open (path : string) : M (option node) :=
  fun w => (fs w !! path, emit (CallOpen path) w).

(** [os.OpenFile(path, os.O_RDWR|os.O_CREATE|os.O_EXCL, 0666)]: the
    error, or [None] after creating an empty file. *)
Definition os_OpenFile (path : string) : M (option openError) :=
  fun w =>
    let w := emit (CallOpenFile path) w in
    match fs w !! path with
    | Some _ => (Some ErrExist, w)
    | None =>
      if creatable w path
      then (None, set_fs (<[path := File NotJSON]> (fs w)) w)
      else (Some ErrOther, w)
    end.

(** [enc.Encode(p)] on the file at [path]: whether it succeeded. *)
Definition Encode (path : string) (p : pattern) : M bool :=
  fun w =>
    let w := emit (CallWrite path) w in
    if writable w
    then (true,
          set_fs (<[path := File (JSON (DocObject (Marshal p)))]> (fs w)) w)
    else (false, w).

Definition getPatternDir : M (option string) :=
  usr <- user_Current ;;
  match usr with
  | None => ret None
  | Some homeDir =>
    let path := Join homeDir ".config/gf" in
    notExist <- os_Stat path ;;
    if negb notExist then ret (Some path)
    else ret (Some (Join homeDir ".gf"))
  end.

Definition savePattern (name flags pat : string) : M (option error) :=
  if String.eqb name "" then ret (Some NameEmpty)
  else if String.eqb pat "" then ret (Some PatternEmpty)
  else
    let p := {| Flags := strings.Fields flags; Pattern := pat;
                Patterns := []; Engine := "" |} in
    patDir <- getPatternDir ;;
    match patDir with
    | None => ret (Some DirectoryResolutionFailure)
    | Some patDir =>
      let path := Join patDir (name +:+ ".json") in
      err <- os_OpenFile path ;;
      match err with
      | Some e => ret (Some (CreateFailure e))
      | None =>
        ok <- Encode path p ;;
        if ok then ret None else ret (Some WriteFailure)
      end
    end.

(** The loop of [getPatterns]: [f[len(patDir)+1 : len(f)-5]] for every
    match, [None] when a slice is out of range. *)
Fixpoint patternNames (patDir : string) (files : list string)
  : option (list string) :=
  match files with
  | [] => Some []
  | f :: rest =>
    match slice f (Z.of_nat (String.length patDir) + 1)
                  (Z.of_nat (String.length f) - 5) with
    | None => None
    | Some name =>
      match patternNames patDir rest with
      | None => None
      | Some names => Some (name :: names)
      end
    end
  end.

Definition getPatterns : M (outcome error (list string)) :=
  patDir <- getPatternDir ;;
  match patDir with
  | None => ret (Err DirectoryResolutionFailure)
  | Some patDir =>
    fun w =>
      let w := emit (CallGlob (patDir +:+ "/*.json")) w in
      match Glob (fs w) (patDir +:+ "/*.json") with
      | None => (Err GlobFailure, w)
      | Some files =>
        match patternNames patDir files with
        | None => (Panic, w)
        | Some out => (Ok out, w)
        end
      end
  end.

(** [os.Stdin.Stat()] is taken to succeed. *)
Definition stdinIsPipe : M bool :=
  fun w => (stdin_pipe w, emit CallStdinStat w).

(** Lines 113-165 of [main]: resolve the record read from [filename]
    and print or run the command. *)
Definition synthesize (dump : bool) (filename files : string)
           (pat : pattern) : M unit :=
  match effectivePattern pat with
  | None => log (Stderr (EmptyPattern filename))
  | Some pattern =>
    let operator := operatorOf pat in
    if dump then
      log (Stdout (dumpLine Quote operator pat pattern files))
    else
      pipe <- stdinIsPipe ;;
      log (Run operator (realArgs operator pat pattern files pipe))
  end.

(** The target path: [flag.Arg(1)], or [.] in its absence. *)
Definition target (c : cli) : string :=
  if String.eqb (Arg c 1) "" then "." else Arg c 1.

Definition main (c : cli) : M unit :=
  if listMode c then
    r <- getPatterns ;;
    match r with
    | Err e => log (Stderr e)
    | Panic => log Panicked
    | Ok pats => log (Stdout (strings.Join pats nl +:+ nl))
    end
  else if saveMode c then
    let name := Arg c 0 in
    let flags := Arg c 1 in
    let pattern := Arg c 2 in
    err <- savePattern name flags pattern ;;
    match err with
    | Some e => log (Stderr e)
    | None => ret tt
    end
  else
    let patName := Arg c 0 in
    let files := target c in
    patDir <- getPatternDir ;;
    match patDir with
    | None => log (Stderr DirectoryResolutionFailure)
    | Some patDir =>
      let filename := Join patDir (patName +:+ ".json") in
      f <- os_Open filename ;;
      match f with
      | None => log (Stderr NoSuchPattern)
      | Some f =>
        let pat := zero in
        match Decode (contentOf f) pat with
        | Err _ => log (Stderr (MalformedRecord filename))
        | Panic => log Panicked
        | Ok pat => synthesize (dumpMode c) filename files pat
        end
      end
    end.

(** The path of the pattern file [main] and [savePattern] use for a
    name in a world, [None] when the pattern directory is not found. *)
Definition patternPath (name : string) (w : world) : option string :=
  match fst (getPatternDir w) with
  | None => None
  | Some patDir => Some (Join patDir (name +:+ ".json"))
  end.

End Program.

(** What a run shows of itself: its output, the command it runs, a
    panic. *)
Definition visible (e : event) : bool :=
  match e with
  | Stderr _ | Stdout _ | Run _ _ | Panicked => true
  | _ => false
  end.

Definition outputs (t : list event) : list event := List.filter visible t.

(** ** Notions used in the statements *)

(** The bytes a list of runes was decoded from. *)
Definition bytesOf (rs : list (N * string)) : string :=
  fold_right (fun '(_, bytes) acc => bytes +:+ acc) "" rs.

(** No rune of the list is a space. *)
Definition noSpace (rs : list (N * string)) : bool :=
  forallb (fun '(r, _) => negb (unicode.IsSpace r)) rs.

(** A token of a flags string: a non-empty string none of whose runes
    is a space. *)
Definition token (t : string) : bool :=
  negb (String.eqb t "") && noSpace (utf8.range t).

(** A byte that is no continuation byte: it starts a rune. *)
Definition starter (a : ascii) : bool :=
  utf8.outside utf8.locb utf8.hicb (N_of_ascii a).

(** Every rune of the string is a space; a blank is such a string that
    is not empty. *)
Definition spaces (s : string) : bool :=
  forallb (fun '(r, _) => unicode.IsSpace r) (utf8.range s).

Definition blank (s : string) : bool :=
  negb (String.eqb s "") && spaces s.



(** An object with its [flags] member replaced ([None] removes it). *)
Definition withFlags (v : option json) (o : object) : object :=
  {| m_flags := v; m_pattern := m_pattern o;
     m_patterns := m_patterns o; m_engine := m_engine o |}.


(** The target path as an argument: present when it is not empty and
    standard input is not a pipe. *)
Definition targetArg (files : string) (pipe : bool) : list string :=
  if negb (String.eqb files "") && negb pipe then [files] else [].

(** The pair ["-e", p] for each pattern [p]. *)
Definition exprArgs (patterns : list string) : list string :=
  flat_map (fun p => ["-e"; p]) patterns.

(** A world after further events. *)
Definition emits (es : list event) (w : world) : world :=
  fold_left (fun w e => emit e w) es w.

(** The calls [getPatternDir] makes in a world. *)
Definition dirCalls (Join : string -> string -> string) (w : world)
  : list event :=
  match home w with
  | None => [CallCurrent]
  | Some homeDir => [CallCurrent; CallStat (Join homeDir ".config/gf")]
  end.

(** The run of [c] in [w] is a pattern run that finds its pattern file at
    [filename] and decodes the record [pat] from it. *)
Definition loads (Join : string -> string -> string) (c : cli) (w : world)
           (filename : string) (pat : pattern) : Prop :=
  listMode c = false /\ saveMode c = false
  /\ patternPath Join (Arg c 0) w = Some filename
  /\ exists n, fs w !! filename = Some n
              /\ Decode (contentOf n) zero = Ok pat.

(** The world in which such a run resolves the record. *)
Definition opened (Join : string -> string -> string) (filename : string)
           (w : world) : world :=
  emits (dirCalls Join w ++ [CallOpen filename]) w.

(** An instance of the parameter [Glob] for the examples: no match. *)
Definition globNone (_ : gmap string node) (_ : string)
  : option (list string) := Some [].

(** A world for the examples: the home directory [/home/u], the given
    paths, a terminal as standard input unless [pipe]. *)
Definition exampleWorld (m : gmap string node) (pipe : bool) : world :=
  {| home := Some "/home/u"; fs := m; creatable := fun _ => true;
     writable := true; stdin_pipe := pipe; trace := [] |}.

(** A command line for the examples, without [-list] and [-save]. *)
Definition exampleRun (dump : bool) (args : list string) : cli :=
  {| saveMode := false; listMode := false; dumpMode := dump; args := args |}.

(** The records of the examples: [{"flags":["-Hnr"],"pattern":"TODO"}],
    [{"patterns":["foo","bar"]}], a record with neither pattern nor
    patterns, and a record with both. *)
Definition todoObject : object :=
  {| m_flags := Some (JArray [JString "-Hnr"]);
     m_pattern := Some (JString "TODO");
     m_patterns := None; m_engine := None |}.

Definition fooBarObject : object :=
  {| m_flags := None; m_pattern := None;
     m_patterns := Some (JArray [JString "foo"; JString "bar"]);
     m_engine := None |}.

Definition emptyObject : object :=
  {| m_flags := Some (JString "-i"); m_pattern := None;
     m_patterns := None; m_engine := None |}.

Definition bothRecord : pattern :=
  {| Flags := []; Pattern := "x"; Patterns := ["a"]; Engine := "" |}.

(** The store of the examples, in [/home/u/.gf]. *)
Definition exampleStore : gmap string node :=
  <["/home/u/.gf/todo.json" := File (JSON (DocObject todoObject))]>
  (<["/home/u/.gf/multi.json" := File (JSON (DocObject fooBarObject))]>
   (<["/home/u/.gf/num.json" :=
        File (JSON (DocObject (withFlags (Some (JNumber "5")) todoObject)))]>
   (<["/home/u/.gf/empty.json" := File (JSON (DocObject emptyObject))]>
    (<["/home/u/.gf" := Dir]> ∅)))).

(** An instance of the parameter [Quote] for the examples: double quotes
    around a string that needs no escaping. *)
Definition quotePlain (s : string) : string :=
  String (ascii_of_nat 34) s +:+ String (ascii_of_nat 34) "".

(** An instance of the parameter [Join] for the examples: on path
    elements that are clean already [filepath.Join] puts a slash between
    them. *)
Definition joinSlash (a b : string) : string := a +:+ "/" +:+ b.

(** ** Further notions *)

(** [utf8.ValidString]: no byte of the string fails to decode. *)
Definition valid (s : string) : bool :=
  forallb (fun '(r, bytes) =>
             negb ((r =? utf8.RuneError)%N && (String.length bytes =? 1)%nat))
          (utf8.range s).

(** The field the loop of [strings.FieldsFunc] is reading after the
    runes [acc]. *)
Definition fieldOf (acc : list (N * string)) : option string :=
  match acc with
  | [] => None
  | _ :: _ => Some (bytesOf acc)
  end.

(** The record [savePattern] builds (lines 188-191). *)
Definition saved (flags pat : string) : pattern :=
  {| Flags := strings.Fields flags; Pattern := pat;
     Patterns := []; Engine := "" |}.

(** A record as it reads back after the JSON encoder has written it. *)
Definition reread (p : pattern) : pattern :=
  {| Flags := map encoded (Flags p); Pattern := encoded (Pattern p);
     Patterns := map encoded (Patterns p); Engine := encoded (Engine p) |}.



(** The commands among some events. *)
Definition isRun (e : event) : bool :=
  match e with
  | Run _ _ => true
  | _ => false
  end.

Definition runs (t : list event) : list event := List.filter isRun t.





(** * Properties *)

(** Case analysis on every test of the goal. *)
Ltac split_ifs :=
  repeat match goal with
         | |- context [if ?c then _ else _] => destruct c eqn:?
         end.

(** ** Byte strings and runes *)

Example Fields_blanks :
  strings.Fields "-H -n -r -i" = ["-H"; "-n"; "-r"; "-i"].
Proof. reflexivity. Qed.

Example Fields_empty : strings.Fields "" = [].
Proof. reflexivity. Qed.

(** Runs of blanks and tabs separate, a no-break space (U+00A0, the
    bytes C2 A0) does too, and a byte that starts no rune does not. *)
Example Fields_runs :
  strings.Fields
    ("  -H" +:+ String (ascii_of_nat 9) "-n  "
            +:+ String (ascii_of_nat 194) (String (ascii_of_nat 160) "-r")
            +:+ String (ascii_of_nat 160) "x")
  = ["-H"; "-n"; "-r" +:+ String (ascii_of_nat 160) "x"].
Proof. reflexivity. Qed.

Example encoded_invalid :
  encoded ("a" +:+ String (ascii_of_nat 255) "b")
  = "a" +:+ replacement +:+ "b".
Proof. reflexivity. Qed.

Lemma append_cons (c : ascii) (a b : string) :
  String c a +:+ b = String c (a +:+ b).
Proof. reflexivity. Qed.

Lemma append_nil (b : string) : "" +:+ b = b.
Proof. reflexivity. Qed.

Lemma take_drop (n : nat) (s : string) : Str.take n s +:+ Str.drop n s = s.
Proof.
  revert s; induction n as [|n IH]; intros [|c s]; simpl; try reflexivity.
  now rewrite append_cons, IH.
Qed.

Lemma drop_length (n : nat) (s : string) :
  String.length (Str.drop n s) = String.length s - n.
Proof.
  revert s; induction n as [|n IH]; intros [|c s]; simpl; auto with arith.
Qed.


Lemma drop_append (n : nat) (s x : string) :
  n <= String.length s -> Str.drop n (s +:+ x) = Str.drop n s +:+ x.
Proof.
  revert s; induction n as [|n IH]; intros [|c s] Hn; simpl in *;
    try reflexivity; try lia.
  apply IH; lia.
Qed.

Lemma take_append (n : nat) (s x : string) :
  n <= String.length s -> Str.take n (s +:+ x) = Str.take n s.
Proof.
  revert s; induction n as [|n IH]; intros [|c s] Hn; simpl in *;
    try reflexivity; try lia.
  f_equal; apply IH; lia.
Qed.

Lemma append_assoc (a b c : string) : (a +:+ b) +:+ c = a +:+ b +:+ c.
Proof.
  induction a as [|x a IH]; [reflexivity|].
  now rewrite !append_cons, IH.
Qed.

Lemma append_empty_r (a : string) : a +:+ "" = a.
Proof.
  induction a as [|x a IH]; [reflexivity|].
  now rewrite append_cons, IH.
Qed.

(** The first byte of a multi-byte sequence announces 2 to 4 bytes and
    accepts only a continuation byte as the second one. *)
Lemma first_SZ (b : N) (sz : nat) (lo hi : N) :
  utf8.first b = utf8.SZ sz lo hi ->
  (sz = 2 \/ sz = 3 \/ sz = 4) /\ (utf8.locb <= lo)%N /\ (hi <= utf8.hicb)%N.
Proof.
  unfold utf8.first, utf8.locb, utf8.hicb.
  repeat match goal with
         | |- context [if ?c then _ else _] => destruct c
         end; intros H; inversion H; subst; repeat split; auto; lia.
Qed.

Lemma outside_starter (lo hi : N) (a : ascii) :
  (utf8.locb <= lo)%N -> (hi <= utf8.hicb)%N ->
  starter a = true -> utf8.outside lo hi (N_of_ascii a) = true.
Proof.
  unfold starter, utf8.outside. intros Hlo Hhi Ha.
  apply orb_true_iff in Ha as [Ha | Ha]; apply N.ltb_lt in Ha;
    apply orb_true_iff; [left | right]; apply N.ltb_lt; lia.
Qed.

(** A byte that continues no sequence does not change how the string
    before it starts. *)
Lemma decode_append_starter (t rest : string) (a : ascii) :
  t <> "" -> starter a = true ->
  utf8.DecodeRuneInString (t +:+ String a rest) = utf8.DecodeRuneInString t.
Proof.
  intros Ht Ha. destruct t as [|c0 t0]; [congruence|].
  unfold utf8.DecodeRuneInString. rewrite append_cons.
  destruct (utf8.first (N_of_ascii c0)) as [| |sz lo hi] eqn:F;
    try reflexivity.
  destruct (first_SZ _ _ _ _ F) as (Hsz & Hlo & Hhi).
  assert (Ho := outside_starter lo hi a Hlo Hhi Ha).
  assert (Hc : utf8.outside utf8.locb utf8.hicb (N_of_ascii a) = true)
    by exact Ha.
  destruct t0 as [|c1 [|c2 [|c3 t3] ] ];
    destruct Hsz as [-> | [-> | ->] ];
    rewrite ?append_cons, ?append_nil;
    cbn [String.length Nat.ltb Nat.leb];
    rewrite ?Ho, ?Hc; split_ifs; try reflexivity; try discriminate.
Qed.

(** A space is decoded from its own bytes only: what follows them does
    not matter. *)
Lemma decode_append_space (s x : string) :
  unicode.IsSpace (fst (utf8.DecodeRuneInString s)) = true ->
  utf8.DecodeRuneInString (s +:+ x) = utf8.DecodeRuneInString s.
Proof.
  destruct s as [|c0 t0]; [intros H; vm_compute in H; discriminate|].
  unfold utf8.DecodeRuneInString. rewrite append_cons.
  destruct (utf8.first (N_of_ascii c0)) as [| |sz lo hi] eqn:F;
    try reflexivity.
  destruct (first_SZ _ _ _ _ F) as (Hsz & _ & _).
  destruct t0 as [|c1 [|c2 [|c3 t3] ] ];
    destruct Hsz as [-> | [-> | ->] ];
    rewrite ?append_cons, ?append_nil;
    cbn [String.length Nat.ltb Nat.leb];
    split_ifs; intros H;
    first [reflexivity | vm_compute in H; discriminate].
Qed.

(** A string that starts with a space starts with a byte that continues
    no sequence. *)
Lemma space_starter (c : ascii) (s : string) :
  unicode.IsSpace (fst (utf8.DecodeRuneInString (String c s))) = true ->
  starter c = true.
Proof.
  unfold starter, utf8.outside, utf8.locb, utf8.hicb.
  unfold utf8.DecodeRuneInString, utf8.first.
  destruct (N_of_ascii c <? 0x80)%N eqn:E1; [reflexivity|].
  destruct (0xBF <? N_of_ascii c)%N eqn:E2; [reflexivity|].
  apply N.ltb_ge in E2.
  replace (N_of_ascii c <? 0xC2)%N with true
    by (symmetry; apply N.ltb_lt; lia).
  intros H; vm_compute in H; discriminate.
Qed.

(** A rune of a non-empty string has between one byte and all of them. *)
Lemma decode_size (s : string) :
  s <> "" ->
  1 <= snd (utf8.DecodeRuneInString s) <= String.length s.
Proof.
  intros Hs. destruct s as [|c0 t0]; [congruence|].
  unfold utf8.DecodeRuneInString.
  destruct (utf8.first (N_of_ascii c0)) as [| |sz lo hi] eqn:F;
    try (simpl; lia).
  destruct (first_SZ _ _ _ _ F) as [Hsz _].
  destruct t0 as [|c1 [|c2 [|c3 t3] ] ];
    destruct Hsz as [-> | [-> | ->] ];
    cbn [String.length Nat.ltb Nat.leb];
    split_ifs; simpl; lia.
Qed.

Lemma range_fuel_enough (n m : nat) (s : string) :
  String.length s <= n -> String.length s <= m ->
  utf8.range_fuel n s = utf8.range_fuel m s.
Proof.
  revert m s; induction n as [|n IH]; intros m s Hn Hm.
  - destruct s; [|simpl in Hn; lia]. now destruct m.
  - destruct s as [|c s]; [now destruct m|].
    destruct m as [|m]; [simpl in Hm; lia|].
    assert (Hd := decode_size (String c s) ltac:(discriminate)).
    cbn [utf8.range_fuel].
    destruct (utf8.DecodeRuneInString (String c s)) as [r size].
    simpl snd in Hd. f_equal.
    apply IH; rewrite drop_length; lia.
Qed.

Lemma range_cons (s : string) :
  s <> "" ->
  utf8.range s =
  (fst (utf8.DecodeRuneInString s),
   Str.take (snd (utf8.DecodeRuneInString s)) s)
    :: utf8.range (Str.drop (snd (utf8.DecodeRuneInString s)) s).
Proof.
  intros Hs. assert (Hd := decode_size s Hs).
  destruct s as [|c s]; [congruence|].
  unfold utf8.range at 1. cbn [String.length utf8.range_fuel].
  destruct (utf8.DecodeRuneInString (String c s)) as [r size].
  simpl fst; simpl snd in *. f_equal.
  apply range_fuel_enough; rewrite drop_length; simpl; lia.
Qed.

Lemma range_append_starter (t rest : string) (a : ascii) :
  starter a = true ->
  utf8.range (t +:+ String a rest) = utf8.range t ++ utf8.range (String a rest).
Proof.
  intros Ha. remember (String.length t) as n eqn:Hn.
  revert t Hn. induction n as [n IH] using lt_wf_ind. intros t Hn.
  destruct t as [|c t]; [reflexivity|].
  assert (Hd := decode_size (String c t) ltac:(discriminate)).
  rewrite (range_cons (String c t)) by discriminate.
  rewrite range_cons by (rewrite append_cons; discriminate).
  rewrite decode_append_starter by (discriminate || exact Ha).
  destruct (utf8.DecodeRuneInString (String c t)) as [r size].
  simpl fst; simpl snd in *.
  rewrite take_append, drop_append by lia.
  rewrite <- app_comm_cons. f_equal.
  apply (IH (String.length (Str.drop size (String c t)))); [|reflexivity].
  rewrite drop_length; lia.
Qed.

(** The runes of spaces followed by anything. *)
Lemma range_append_spaces (s x : string) :
  spaces s = true -> utf8.range (s +:+ x) = utf8.range s ++ utf8.range x.
Proof.
  unfold spaces. remember (String.length s) as n eqn:Hn.
  revert s Hn. induction n as [n IH] using lt_wf_ind. intros s Hn.
  destruct s as [|c s]; [reflexivity|].
  assert (Hd := decode_size (String c s) ltac:(discriminate)).
  rewrite (range_cons (String c s)) by discriminate.
  rewrite (range_cons (String c s +:+ x))
    by (rewrite append_cons; discriminate).
  cbn [forallb]. intros H. apply andb_prop in H as [Hr H].
  rewrite decode_append_space by exact Hr.
  destruct (utf8.DecodeRuneInString (String c s)) as [r size].
  simpl fst in *; simpl snd in *.
  rewrite take_append, drop_append by lia.
  rewrite <- app_comm_cons. f_equal.
  apply (IH (String.length (Str.drop size (String c s))));
    [rewrite drop_length; lia | reflexivity | exact H].
Qed.

Lemma blank_starter (b x : string) :
  blank b = true -> exists c y, b +:+ x = String c y /\ starter c = true.
Proof.
  unfold blank, spaces. destruct b as [|c b]; [discriminate|].
  cbn [String.eqb negb andb]. rewrite range_cons by discriminate.
  cbn [forallb]. intros H. apply andb_prop in H as [Hr _].
  exists c, (b +:+ x). split; [reflexivity|].
  eapply space_starter; exact Hr.
Qed.

Lemma bytesOf_range (s : string) : bytesOf (utf8.range s) = s.
Proof.
  remember (String.length s) as n eqn:Hn.
  revert s Hn. induction n as [n IH] using lt_wf_ind. intros s Hn.
  destruct s as [|c s]; [reflexivity|].
  assert (Hd := decode_size (String c s) ltac:(discriminate)).
  rewrite range_cons by discriminate.
  destruct (utf8.DecodeRuneInString (String c s)) as [r size].
  simpl fst; simpl snd in *. cbn [bytesOf fold_right].
  fold (bytesOf (utf8.range (Str.drop size (String c s)))).
  rewrite (IH (String.length (Str.drop size (String c s))));
    [apply take_drop | rewrite drop_length; lia | reflexivity].
Qed.

(** ** [strings.Fields] on tokens *)

Lemma fieldsLoop_run (rs1 rs2 : list (N * string)) (w : string) :
  noSpace rs1 = true ->
  strings.fieldsLoop unicode.IsSpace (rs1 ++ rs2) (Some w) =
  strings.fieldsLoop unicode.IsSpace rs2 (Some (w +:+ bytesOf rs1)).
Proof.
  revert w; induction rs1 as [|[r b] rs1 IH]; intros w H.
  - simpl. now rewrite append_empty_r.
  - simpl in H. apply andb_prop in H as [Hr H].
    apply negb_true_iff in Hr.
    cbn [app strings.fieldsLoop]. rewrite Hr, IH by exact H.
    cbn [bytesOf fold_right]. fold (bytesOf rs1).
    now rewrite append_assoc.
Qed.

Lemma fieldsLoop_start (rs1 rs2 : list (N * string)) :
  rs1 <> [] -> noSpace rs1 = true ->
  strings.fieldsLoop unicode.IsSpace (rs1 ++ rs2) None =
  strings.fieldsLoop unicode.IsSpace rs2 (Some (bytesOf rs1)).
Proof.
  destruct rs1 as [|[r b] rs1]; [congruence|]. intros _ H.
  simpl in H. apply andb_prop in H as [Hr H].
  apply negb_true_iff in Hr.
  cbn [app strings.fieldsLoop]. rewrite Hr.
  now rewrite fieldsLoop_run.
Qed.

Lemma token_range (t : string) :
  token t = true -> utf8.range t <> [] /\ noSpace (utf8.range t) = true.
Proof.
  unfold token. intros H. apply andb_prop in H as [Ht H]. split; [|exact H].
  destruct t as [|c t]; [discriminate|].
  rewrite range_cons by discriminate. discriminate.
Qed.

(** A token is a single field. *)
Lemma Fields_token (t : string) : token t = true -> strings.Fields t = [t].
Proof.
  intros H. destruct (token_range t H) as [Hne Hns].
  unfold strings.Fields, strings.FieldsFunc.
  rewrite <- (app_nil_r (utf8.range t)).
  rewrite fieldsLoop_start by assumption.
  simpl. now rewrite bytesOf_range.
Qed.

Lemma fieldsLoop_spaces (rs1 rs2 : list (N * string)) :
  forallb (fun '(r, _) => unicode.IsSpace r) rs1 = true ->
  strings.fieldsLoop unicode.IsSpace (rs1 ++ rs2) None =
  strings.fieldsLoop unicode.IsSpace rs2 None.
Proof.
  induction rs1 as [|[r b] rs1 IH]; intros H; [reflexivity|].
  simpl in H. apply andb_prop in H as [Hr H].
  cbn [app strings.fieldsLoop]. rewrite Hr. now apply IH.
Qed.

Lemma fieldsLoop_end (rs1 rs2 : list (N * string)) (w : string) :
  rs1 <> [] ->
  forallb (fun '(r, _) => unicode.IsSpace r) rs1 = true ->
  strings.fieldsLoop unicode.IsSpace (rs1 ++ rs2) (Some w) =
  w :: strings.fieldsLoop unicode.IsSpace rs2 None.
Proof.
  destruct rs1 as [|[r b] rs1]; [congruence|]. intros _ H.
  simpl in H. apply andb_prop in H as [Hr H].
  cbn [app strings.fieldsLoop]. rewrite Hr. f_equal.
  now apply fieldsLoop_spaces.
Qed.

(** Leading spaces are skipped. *)
Lemma Fields_spaces (b rest : string) :
  spaces b = true -> strings.Fields (b +:+ rest) = strings.Fields rest.
Proof.
  intros H. unfold strings.Fields, strings.FieldsFunc.
  rewrite range_append_spaces by exact H.
  now apply fieldsLoop_spaces.
Qed.

(** A token followed by a blank is the first field. *)
Lemma Fields_token_blank (t b rest : string) :
  token t = true -> blank b = true ->
  strings.Fields (t +:+ b +:+ rest) = t :: strings.Fields rest.
Proof.
  intros Ht Hb. destruct (token_range t Ht) as [Hne Hns].
  destruct (blank_starter b rest Hb) as (c & y & Hy & Hc).
  unfold strings.Fields, strings.FieldsFunc.
  rewrite Hy, range_append_starter, <- Hy by exact Hc.
  unfold blank in Hb. apply andb_prop in Hb as [Hb Hs].
  rewrite range_append_spaces by exact Hs.
  rewrite fieldsLoop_start by assumption.
  rewrite bytesOf_range. apply fieldsLoop_end; [|exact Hs].
  destruct b as [|c' b]; [discriminate|].
  rewrite range_cons by discriminate. discriminate.
Qed.

(** Splitting undoes joining with single blanks. *)
Lemma Fields_Join (tokens : list string) :
  forallb token tokens = true ->
  strings.Fields (strings.Join tokens " ") = tokens.
Proof.
  induction tokens as [|t tokens IH]; intros H; [reflexivity|].
  simpl in H. apply andb_prop in H as [Ht H].
  destruct tokens as [|t' tokens].
  - simpl. now apply Fields_token.
  - change (strings.Join (t :: t' :: tokens) " ")
      with (t +:+ " " +:+ strings.Join (t' :: tokens) " ").
    rewrite Fields_token_blank by (exact Ht || reflexivity).
    now rewrite IH.
Qed.



(** ** Worlds and traces *)

Lemma emits_app (es1 es2 : list event) (w : world) :
  emits (es1 ++ es2) w = emits es2 (emits es1 w).
Proof. apply fold_left_app. Qed.

Lemma emits_frame (es : list event) (w : world) :
  home (emits es w) = home w /\ fs (emits es w) = fs w
  /\ creatable (emits es w) = creatable w
  /\ writable (emits es w) = writable w
  /\ stdin_pipe (emits es w) = stdin_pipe w
  /\ trace (emits es w) = trace w ++ es.
Proof.
  revert w; induction es as [|e es IH]; intros w.
  - simpl. now rewrite app_nil_r.
  - cbn [emits fold_left]. destruct (IH (emit e w)) as (?&?&?&?&?&Ht).
    fold (emits es (emit e w)). repeat split; try assumption.
    rewrite Ht. simpl. now rewrite <- app_assoc.
Qed.

Lemma fs_emits (es : list event) (w : world) : fs (emits es w) = fs w.
Proof. apply emits_frame. Qed.

Lemma trace_emits (es : list event) (w : world) :
  trace (emits es w) = trace w ++ es.
Proof. apply emits_frame. Qed.

Lemma outputs_app (t1 t2 : list event) :
  outputs (t1 ++ t2) = outputs t1 ++ outputs t2.
Proof. apply List.filter_app. Qed.

Lemma outputs_dirCalls Join (w : world) : outputs (dirCalls Join w) = [].
Proof. unfold dirCalls. now destruct (home w). Qed.

(** [getPatternDir] only looks: it makes its calls and changes nothing
    else. *)
Lemma getPatternDir_emits Join (w : world) :
  snd (getPatternDir Join w) = emits (dirCalls Join w) w.
Proof.
  unfold getPatternDir, dirCalls, bind, user_Current, os_Stat, ret.
  destruct w as [h m cr wr sp t]; simpl.
  destruct h as [h|]; simpl; [|reflexivity].
  now destruct (m !! Join h ".config/gf").
Qed.

Lemma appendExprs_flat_map (args patterns : list string) :
  appendExprs args patterns
  = args ++ exprArgs patterns.
Proof.
  revert args; induction patterns as [|p ps IH]; intros args; simpl.
  - now rewrite app_nil_r.
  - rewrite IH. now rewrite <- app_assoc.
Qed.

(** ** [main] *)

Lemma synthesize_emits Quote (dump : bool) (filename files : string)
      (pat : pattern) (w : world) :
  synthesize Quote dump filename files pat w =
  (tt, emits
         match effectivePattern pat with
         | None => [Stderr (EmptyPattern filename)]
         | Some pattern =>
           if dump
           then [Stdout (dumpLine Quote (operatorOf pat) pat pattern files)]
           else [CallStdinStat;
                 Run (operatorOf pat)
                     (realArgs (operatorOf pat) pat pattern files
                               (stdin_pipe w))]
         end w).
Proof.
  unfold synthesize. destruct (effectivePattern pat); [|reflexivity].
  destruct dump; reflexivity.
Qed.

(** A run that finds the pattern file: what it does after opening it. *)
Lemma main_loaded Join Quote Glob (c : cli) (w : world)
      (filename : string) (n : node) :
  listMode c = false -> saveMode c = false ->
  patternPath Join (Arg c 0) w = Some filename ->
  fs w !! filename = Some n ->
  main Join Quote Glob c w =
  let w' := emits (dirCalls Join w ++ [CallOpen filename]) w in
  match Decode (contentOf n) zero with
  | Err _ => (tt, emit (Stderr (MalformedRecord filename)) w')
  | Panic => (tt, emit Panicked w')
  | Ok pat => synthesize Quote (dumpMode c) filename (target c) pat w'
  end.
Proof.
  intros Hl Hs Hp Hf. unfold main, patternPath in *. rewrite Hl, Hs.
  unfold bind at 1. assert (Hd := getPatternDir_emits Join w).
  destruct (getPatternDir Join w) as [d w1]. simpl in Hp, Hd. subst w1.
  destruct d as [d|]; [|discriminate]. injection Hp as <-.
  unfold bind, os_Open. rewrite fs_emits, Hf. cbv zeta.
  rewrite emits_app.
  destruct (Decode (contentOf n) zero); reflexivity.
Qed.

Lemma main_synthesize Join Quote Glob (c : cli) (w : world)
      (filename : string) (pat : pattern) :
  loads Join c w filename pat ->
  main Join Quote Glob c w =
  synthesize Quote (dumpMode c) filename (target c) pat
             (opened Join filename w).
Proof.
  intros (Hl & Hs & Hp & n & Hf & Hd).
  rewrite (main_loaded _ _ _ _ _ _ _ Hl Hs Hp Hf), Hd. reflexivity.
Qed.

Lemma opened_frame Join (filename : string) (w : world) :
  stdin_pipe (opened Join filename w) = stdin_pipe w
  /\ fs (opened Join filename w) = fs w
  /\ outputs (trace (opened Join filename w)) = outputs (trace w).
Proof.
  unfold opened. destruct (emits_frame (dirCalls Join w ++ [CallOpen filename]) w)
    as (_ & Hf & _ & _ & Hp & Ht).
  repeat split; try assumption.
  rewrite Ht, !outputs_app, outputs_dirCalls. simpl. now rewrite app_nil_r.
Qed.

Lemma multi_false (operator : string) (pat : pattern) :
  Patterns pat = [] \/ operator <> "ugrep" -> multi operator pat = false.
Proof.
  unfold multi. intros [-> | H]; [apply andb_false_r|].
  apply String.eqb_neq in H. now rewrite H.
Qed.

Lemma multi_true (pat : pattern) :
  Patterns pat <> [] -> multi "ugrep" pat = true.
Proof. unfold multi. destruct (Patterns pat); [congruence | reflexivity]. Qed.

Lemma realArgs_single (operator : string) (pat : pattern)
      (pattern files : string) (pipe : bool) :
  multi operator pat = false ->
  realArgs operator pat pattern files pipe
  = Flags pat ++ [pattern] ++ targetArg files pipe.
Proof.
  intros H. unfold realArgs, targetArg. rewrite H.
  rewrite andb_comm. destruct (negb _ && negb _); simpl.
  - now rewrite <- app_assoc.
  - reflexivity.
Qed.

Lemma realArgs_multi (operator : string) (pat : pattern)
      (pattern files : string) (pipe : bool) :
  multi operator pat = true ->
  realArgs operator pat pattern files pipe
  = Flags pat ++ exprArgs (Patterns pat) ++ targetArg files pipe.
Proof.
  intros H. unfold realArgs, targetArg. rewrite H.
  rewrite appendExprs_flat_map. rewrite andb_comm.
  destruct (negb _ && negb _); simpl.
  - now rewrite <- app_assoc.
  - now rewrite app_nil_r.
Qed.

(** ** Resolution and the arguments of the command *)

(** C1, as amended: for every record whose [pattern] is not empty and
    that does not take the multi-pattern path ([patterns] is empty or the
    engine selected is not [ugrep]), the effective pattern is [pattern]
    unchanged and the command run has as arguments the flags in order,
    then that pattern, then the target path if it is not empty and
    standard input is not a pipe.  The second part is the same for a
    whole run of [main] that loads such a record. *)
Theorem single_pattern_arguments
        Join Quote Glob (c : cli) (filename files : string)
        (pat : pattern) (w : world) :
  Pattern pat <> "" ->
  Patterns pat = [] \/ operatorOf pat <> "ugrep" ->
  effectivePattern pat = Some (Pattern pat)
  /\ synthesize Quote false filename files pat w =
     (tt, emits [CallStdinStat;
                 Run (operatorOf pat)
                     (Flags pat ++ [Pattern pat]
                        ++ targetArg files (stdin_pipe w))] w)
  /\ (loads Join c w filename pat -> dumpMode c = false ->
      outputs (trace (snd (main Join Quote Glob c w))) =
      outputs (trace w)
        ++ [Run (operatorOf pat)
                (Flags pat ++ [Pattern pat]
                   ++ targetArg (target c) (stdin_pipe w))]).
Proof.
  intros Hp Hm. apply multi_false in Hm.
  assert (He : effectivePattern pat = Some (Pattern pat)).
  { unfold effectivePattern. apply String.eqb_neq in Hp. now rewrite Hp. }
  assert (Hs : forall files w,
             synthesize Quote false filename files pat w =
             (tt, emits [CallStdinStat;
                         Run (operatorOf pat)
                             (Flags pat ++ [Pattern pat]
                                ++ targetArg files (stdin_pipe w))] w)).
  { intros f v. rewrite synthesize_emits, He.
    now rewrite realArgs_single by exact Hm. }
  split; [exact He|]. split; [apply Hs|].
  intros Hl Hd. rewrite (main_synthesize _ _ _ _ _ _ _ Hl), Hd, Hs.
  destruct (opened_frame Join filename w) as (Hpipe & _ & Ho).
  cbn [snd]. rewrite trace_emits, outputs_app, Ho, Hpipe. reflexivity.
Qed.

Lemma single_pattern_arguments_witness :
  effectivePattern (Build_pattern ["-Hnr"] "TODO" [] "") = Some "TODO"
  /\ synthesize quotePlain false "/home/u/.gf/todo.json" "."
                (Build_pattern ["-Hnr"] "TODO" [] "")
                (exampleWorld exampleStore false) =
     (tt, emits [CallStdinStat; Run "ugrep" ["-Hnr"; "TODO"; "."]]
                (exampleWorld exampleStore false))
  /\ outputs (trace (snd (main joinSlash quotePlain globNone
                               (exampleRun false ["todo"; "."])
                               (exampleWorld exampleStore false)))) =
     [Run "ugrep" ["-Hnr"; "TODO"; "."]].
Proof.
  destruct (single_pattern_arguments
              joinSlash quotePlain globNone (exampleRun false ["todo"; "."])
              "/home/u/.gf/todo.json" "."
              (Build_pattern ["-Hnr"] "TODO" [] "")
              (exampleWorld exampleStore false))
    as (He & Hs & Hm).
  - discriminate.
  - left; reflexivity.
  - split; [exact He|]. split; [exact Hs|].
    apply Hm; [|reflexivity].
    repeat split. eexists; split; reflexivity.
Defined.

(** C1 as stated fails for a record that holds both [pattern] and
    [patterns] and selects the default engine: the command gets the
    [-e] pairs, not [pattern]. *)
Lemma single_pattern_any_patterns_fails :
  synthesize quotePlain false "/home/u/.gf/both.json" "." bothRecord
             (exampleWorld exampleStore false) =
  (tt, emits [CallStdinStat; Run "ugrep" ["-e"; "a"; "."]]
             (exampleWorld exampleStore false))
  /\ ~ (forall Quote filename files pat w,
          Pattern pat <> "" ->
          synthesize Quote false filename files pat w =
          (tt, emits [CallStdinStat;
                      Run (operatorOf pat)
                          (Flags pat ++ [Pattern pat]
                             ++ targetArg files (stdin_pipe w))] w)).
Proof.
  split; [reflexivity|]. intros H.
  specialize (H quotePlain "/home/u/.gf/both.json" "." bothRecord
                (exampleWorld exampleStore false) ltac:(discriminate)).
  apply (f_equal (fun r => trace (snd r))) in H.
  vm_compute in H. discriminate.
Qed.

(** C2: for every record with an empty [pattern] and non-empty
    [patterns], resolution produces the string ["("], then the elements
    of [patterns] joined by ["|"], then [")"], and selects the [engine]
    field when it is not empty, else ["ugrep"]; a run that does not dump
    runs the engine selected, and gives it that string unless it takes
    the multi-pattern path. *)
Theorem multi_pattern_resolution
        Quote (filename files : string) (pat : pattern) (w : world) :
  Pattern pat = "" ->
  Patterns pat <> [] ->
  effectivePattern pat
  = Some ("(" +:+ strings.Join (Patterns pat) "|" +:+ ")")
  /\ (Engine pat <> "" -> operatorOf pat = Engine pat)
  /\ (Engine pat = "" -> operatorOf pat = "ugrep")
  /\ synthesize Quote false filename files pat w =
     (tt, emits [CallStdinStat;
                 Run (operatorOf pat)
                     (if String.eqb (operatorOf pat) "ugrep"
                      then Flags pat ++ exprArgs (Patterns pat)
                             ++ targetArg files (stdin_pipe w)
                      else Flags pat
                             ++ ["(" +:+ strings.Join (Patterns pat) "|"
                                     +:+ ")"]
                             ++ targetArg files (stdin_pipe w))] w).
Proof.
  intros Hp Hn.
  assert (He : effectivePattern pat
               = Some ("(" +:+ strings.Join (Patterns pat) "|" +:+ ")")).
  { unfold effectivePattern. rewrite Hp.
    destruct (Patterns pat); [congruence | reflexivity]. }
  split; [exact He|]. split; [|split].
  - intros H. unfold operatorOf. apply String.eqb_neq in H. now rewrite H.
  - intros H. unfold operatorOf. now rewrite H.
  - rewrite synthesize_emits, He.
    destruct (String.eqb (operatorOf pat) "ugrep") eqn:Ho.
    + apply String.eqb_eq in Ho. rewrite Ho.
      now rewrite realArgs_multi by (apply multi_true; exact Hn).
    + apply String.eqb_neq in Ho.
      now rewrite realArgs_single by (apply multi_false; right; exact Ho).
Qed.

Lemma multi_pattern_resolution_witness :
  effectivePattern (Build_pattern ["-i"] "" ["foo"; "bar"] "rg")
  = Some "(foo|bar)"
  /\ operatorOf (Build_pattern ["-i"] "" ["foo"; "bar"] "rg") = "rg"
  /\ operatorOf (Build_pattern ["-i"] "" ["foo"; "bar"] "") = "ugrep"
  /\ synthesize quotePlain false "/home/u/.gf/rg.json" "src"
                (Build_pattern ["-i"] "" ["foo"; "bar"] "rg")
                (exampleWorld exampleStore false) =
     (tt, emits [CallStdinStat; Run "rg" ["-i"; "(foo|bar)"; "src"]]
                (exampleWorld exampleStore false)).
Proof.
  destruct (multi_pattern_resolution
              quotePlain "/home/u/.gf/rg.json" "src"
              (Build_pattern ["-i"] "" ["foo"; "bar"] "rg")
              (exampleWorld exampleStore false))
    as (He & Ho & _ & Hs); [reflexivity | discriminate |].
  destruct (multi_pattern_resolution
              quotePlain "/home/u/.gf/rg.json" "src"
              (Build_pattern ["-i"] "" ["foo"; "bar"] "")
              (exampleWorld exampleStore false))
    as (_ & _ & Hu & _); [reflexivity | discriminate |].
  split; [exact He|]. split; [apply Ho; discriminate|].
  split; [apply Hu; reflexivity | exact Hs].
Defined.

(** C3: for every record with non-empty [patterns] and the default
    engine selected, the command run has as arguments the flags in
    order, then ["-e"] and [p] for each [p] of [patterns] in order, then
    the target path if it is not empty and standard input is not a pipe.
    A whole run of [main] that loads such a record runs [ugrep] with
    these arguments, the target path being ["."] when the caller gives
    none. *)
Theorem multi_pattern_arguments
        Join Quote Glob (c : cli) (filename files : string)
        (pat : pattern) (w : world) :
  Patterns pat <> [] ->
  operatorOf pat = "ugrep" ->
  synthesize Quote false filename files pat w =
  (tt, emits [CallStdinStat;
              Run "ugrep"
                  (Flags pat ++ exprArgs (Patterns pat)
                     ++ targetArg files (stdin_pipe w))] w)
  /\ (loads Join c w filename pat -> dumpMode c = false ->
      outputs (trace (snd (main Join Quote Glob c w))) =
      outputs (trace w)
        ++ [Run "ugrep"
                (Flags pat ++ exprArgs (Patterns pat)
                   ++ targetArg (if String.eqb (Arg c 1) "" then "."
                                 else Arg c 1)
                                (stdin_pipe w))]).
Proof.
  intros Hn Ho.
  assert (He : exists pattern, effectivePattern pat = Some pattern).
  { unfold effectivePattern. destruct (String.eqb (Pattern pat) "");
      [|eauto]. destruct (Patterns pat); [congruence | simpl; eauto]. }
  destruct He as [pattern He].
  assert (Hs : forall files w,
             synthesize Quote false filename files pat w =
             (tt, emits [CallStdinStat;
                         Run "ugrep"
                             (Flags pat ++ exprArgs (Patterns pat)
                                ++ targetArg files (stdin_pipe w))] w)).
  { intros f v. rewrite synthesize_emits, He, Ho.
    now rewrite realArgs_multi by (apply multi_true; exact Hn). }
  split; [apply Hs|].
  intros Hl Hd. rewrite (main_synthesize _ _ _ _ _ _ _ Hl), Hd, Hs.
  destruct (opened_frame Join filename w) as (Hpipe & _ & Hout).
  cbn [snd]. rewrite trace_emits, outputs_app, Hout, Hpipe. reflexivity.
Qed.

Lemma multi_pattern_arguments_witness :
  synthesize quotePlain false "/home/u/.gf/multi.json" ""
             (Build_pattern [] "" ["foo"; "bar"] "")
             (exampleWorld exampleStore false) =
  (tt, emits [CallStdinStat; Run "ugrep" ["-e"; "foo"; "-e"; "bar"]]
             (exampleWorld exampleStore false))
  /\ outputs (trace (snd (main joinSlash quotePlain globNone
                               (exampleRun false ["multi"])
                               (exampleWorld exampleStore false)))) =
     [Run "ugrep" ["-e"; "foo"; "-e"; "bar"; "."]].
Proof.
  destruct (multi_pattern_arguments
              joinSlash quotePlain globNone (exampleRun false ["multi"])
              "/home/u/.gf/multi.json" ""
              (Build_pattern [] "" ["foo"; "bar"] "")
              (exampleWorld exampleStore false))
    as (Hs & Hm); [discriminate | reflexivity |].
  split; [exact Hs|].
  apply Hm; [|reflexivity].
  repeat split. eexists; split; reflexivity.
Defined.

(** C4: for every record with both [pattern] and [patterns] empty,
    resolution fails; what follows the decoding in [main] is then the
    report of the error and nothing else, whether dumping or not, and a
    whole run that loads such a record shows that report only: it prints
    no command and runs none. *)
Theorem empty_pattern_aborts
        Join Quote Glob (c : cli) (dump : bool) (filename files : string)
        (pat : pattern) (w : world) :
  Pattern pat = "" ->
  Patterns pat = [] ->
  effectivePattern pat = None
  /\ synthesize Quote dump filename files pat w =
     (tt, emit (Stderr (EmptyPattern filename)) w)
  /\ (loads Join c w filename pat ->
      outputs (trace (snd (main Join Quote Glob c w))) =
      outputs (trace w) ++ [Stderr (EmptyPattern filename)]).
Proof.
  intros Hp Hn.
  assert (He : effectivePattern pat = None).
  { unfold effectivePattern. now rewrite Hp, Hn. }
  assert (Hs : forall dump files w,
             synthesize Quote dump filename files pat w =
             (tt, emit (Stderr (EmptyPattern filename)) w)).
  { intros d f v. now rewrite synthesize_emits, He. }
  split; [exact He|]. split; [apply Hs|].
  intros Hl. rewrite (main_synthesize _ _ _ _ _ _ _ Hl), Hs.
  destruct (opened_frame Join filename w) as (_ & _ & Hout).
  cbn [snd emit trace]. rewrite outputs_app, Hout. reflexivity.
Qed.

Lemma empty_pattern_aborts_witness :
  effectivePattern (Build_pattern ["-i"] "" [] "") = None
  /\ synthesize quotePlain false "/home/u/.gf/empty.json" "."
                (Build_pattern ["-i"] "" [] "")
                (exampleWorld exampleStore false) =
     (tt, emit (Stderr (EmptyPattern "/home/u/.gf/empty.json"))
               (exampleWorld exampleStore false))
  /\ outputs (trace (snd (main joinSlash quotePlain globNone
                               (exampleRun false ["empty"])
                               (exampleWorld exampleStore false)))) =
     [Stderr (EmptyPattern "/home/u/.gf/empty.json")].
Proof.
  destruct (empty_pattern_aborts
              joinSlash quotePlain globNone (exampleRun false ["empty"])
              false "/home/u/.gf/empty.json" "."
              (Build_pattern ["-i"] "" [] "")
              (exampleWorld exampleStore false))
    as (He & Hs & Hm); [reflexivity | reflexivity |].
  split; [exact He|]. split; [exact Hs|].
  apply Hm. repeat split. eexists; split; reflexivity.
Defined.

(** ** Decoding *)

Lemma UnmarshalJSON_object (p : pattern) (o : object) :
  UnmarshalJSON p (DocObject o) =
  match storeString (Pattern p) (m_pattern o),
        storeStrings (Patterns p) (m_patterns o),
        storeString (Engine p) (m_engine o) with
  | Some pat, Some pats, Some eng =>
    Ok {| Flags :=
            match m_flags o with
            | Some (JString v) =>
              if String.eqb v "" then Flags p else strings.Fields v
            | Some (JArray v) => stringElems v
            | _ => Flags p
            end;
          Pattern := pat; Patterns := pats; Engine := eng |}
  | _, _, _ => Err UnmarshalTypeError
  end.
Proof.
  unfold UnmarshalJSON, Unmarshal; cbn [aux_Alias aux_Flags].
  destruct (storeString (Pattern p) (m_pattern o)) as [pat|];
    [|reflexivity].
  destruct (storeStrings (Patterns p) (m_patterns o)) as [pats|];
    [|reflexivity].
  destruct (storeString (Engine p) (m_engine o)) as [eng|];
    [|reflexivity].
  cbn [aux_Alias aux_Flags Flags Pattern Patterns Engine].
  destruct (m_flags o) as [[| | |v|v|]|]; try reflexivity.
  cbn [storeInterface]. now destruct (String.eqb v "").
Qed.




(** ** The line printed by [-dump] *)





(** C7: on the single-pattern (or other-engine) path the line printed by
    a dump is the engine name, the flags joined by blanks, the effective
    pattern as [%q] renders it and the target path as it is, separated by
    blanks; standard input is not even looked at, so the target path is
    there whether or not it is a pipe, also where the command that would
    be run gets no target path because it is one. *)
Theorem dump_single_pattern
        Quote (filename files : string) (pat : pattern) (effective : string)
        (w : world) :
  effectivePattern pat = Some effective ->
  Patterns pat = [] \/ operatorOf pat <> "ugrep" ->
  synthesize Quote true filename files pat w =
  (tt, emit (Stdout (operatorOf pat +:+ " "
                       +:+ strings.Join (Flags pat) " " +:+ " "
                       +:+ Quote effective +:+ " " +:+ files +:+ nl)) w)
  /\ (stdin_pipe w = true ->
      synthesize Quote false filename files pat w =
      (tt, emits [CallStdinStat;
                  Run (operatorOf pat) (Flags pat ++ [effective])] w)).
Proof.
  intros He Hm. apply multi_false in Hm. split.
  - rewrite synthesize_emits, He. unfold dumpLine. now rewrite Hm.
  - intros Hp. rewrite synthesize_emits, He, Hp.
    rewrite realArgs_single by exact Hm.
    unfold targetArg. now rewrite andb_false_r.
Qed.

Lemma dump_single_pattern_witness :
  synthesize quotePlain true "/home/u/.gf/todo.json" "./src"
             (Build_pattern ["-H"; "-n"] "TODO" [] "")
             (exampleWorld exampleStore true) =
  (tt, emit (Stdout ("ugrep -H -n " +:+ quotePlain "TODO" +:+ " ./src"
                       +:+ nl))
            (exampleWorld exampleStore true))
  /\ synthesize quotePlain false "/home/u/.gf/todo.json" "./src"
                (Build_pattern ["-H"; "-n"] "TODO" [] "")
                (exampleWorld exampleStore true) =
     (tt, emits [CallStdinStat; Run "ugrep" ["-H"; "-n"; "TODO"]]
                (exampleWorld exampleStore true)).
Proof.
  destruct (dump_single_pattern
              quotePlain "/home/u/.gf/todo.json" "./src"
              (Build_pattern ["-H"; "-n"] "TODO" [] "") "TODO"
              (exampleWorld exampleStore true))
    as (Hd & Hr); [reflexivity | left; reflexivity |].
  split; [exact Hd | apply Hr; reflexivity].
Defined.


Lemma token_not_empty (t : string) (ts : list string) (sep : string) :
  token t = true -> String.eqb (strings.Join (t :: ts) sep) "" = false.
Proof.
  destruct t as [|c t]; [discriminate|]. now destruct ts.
Qed.

Lemma stringElems_strings (l : list string) :
  stringElems (map JString l) = l.
Proof. induction l as [|x l IH]; simpl; [reflexivity | now rewrite IH]. Qed.



(** ** The pattern store *)

Lemma savePattern_checked Join (name flags pat : string) (w : world) :
  name <> "" -> pat <> "" ->
  savePattern Join name flags pat w =
  match patternPath Join name w with
  | None => (Some DirectoryResolutionFailure, emits (dirCalls Join w) w)
  | Some path =>
    let w' := emits (dirCalls Join w ++ [CallOpenFile path]) w in
    match fs w !! path with
    | Some _ => (Some NameCollision, w')
    | None =>
      if creatable w path
      then (ok <- Encode path
                         {| Flags := strings.Fields flags; Pattern := pat;
                            Patterns := []; Engine := "" |} ;;
            if ok then ret None else ret (Some WriteFailure))
             (set_fs (<[path := File NotJSON]> (fs w)) w')
      else (Some (CreateFailure ErrOther), w')
    end
  end.
Proof.
  intros Hn Hp. unfold savePattern, patternPath.
  apply String.eqb_neq in Hn, Hp. rewrite Hn, Hp.
  unfold bind at 1. assert (Hd := getPatternDir_emits Join w).
  destruct (getPatternDir Join w) as [d w1]. simpl in Hd. subst w1.
  cbn [fst]. destruct d as [d|]; [|reflexivity].
  set (path := Join d (name +:+ ".json")).
  unfold bind, os_OpenFile. cbv zeta. rewrite emits_app.
  change (emit (CallOpenFile path) (emits (dirCalls Join w) w))
    with (emits [CallOpenFile path] (emits (dirCalls Join w) w)).
  destruct (emits_frame [CallOpenFile path] (emits (dirCalls Join w) w))
    as (_ & Hf & Hc & _).
  destruct (emits_frame (dirCalls Join w) w) as (_ & Hf' & Hc' & _).
  rewrite Hf, Hf', Hc, Hc'.
  destruct (fs w !! path); [reflexivity|].
  destruct (creatable w path); reflexivity.
Qed.

(** C9, as amended: a save that names a pattern whose file exists changes
    no file and returns an error; for a name and a pattern string that
    are not empty the error is the name collision, reported by the
    exclusive creation of the file, the last call made. *)
Theorem save_existing_name
        Join (name flags pat path : string) (w : world) :
  patternPath Join name w = Some path ->
  is_Some (fs w !! path) ->
  (exists e, fst (savePattern Join name flags pat w) = Some e)
  /\ fs (snd (savePattern Join name flags pat w)) = fs w
  /\ (name <> "" -> pat <> "" ->
      savePattern Join name flags pat w =
      (Some NameCollision,
       emits (dirCalls Join w ++ [CallOpenFile path]) w)).
Proof.
  intros Hp [n Hn].
  assert (Hc : name <> "" -> pat <> "" ->
               savePattern Join name flags pat w =
               (Some NameCollision,
                emits (dirCalls Join w ++ [CallOpenFile path]) w)).
  { intros H1 H2. rewrite savePattern_checked by assumption.
    rewrite Hp. cbv zeta. now rewrite Hn. }
  destruct (String.eqb_spec name "") as [-> | Hname].
  { unfold savePattern; cbn. repeat split; eauto; congruence. }
  destruct (String.eqb_spec pat "") as [-> | Hpat].
  { unfold savePattern. apply String.eqb_neq in Hname as ->. cbn.
    repeat split; eauto; congruence. }
  rewrite (Hc Hname Hpat). cbn [fst snd]. rewrite fs_emits. eauto.
Qed.

Lemma save_existing_name_witness :
  savePattern joinSlash "todo" "-Hnr" "FIXME"
              (exampleWorld exampleStore false) =
  (Some NameCollision,
   emits [CallCurrent; CallStat "/home/u/.config/gf";
          CallOpenFile "/home/u/.gf/todo.json"]
         (exampleWorld exampleStore false))
  /\ fs (snd (savePattern joinSlash "todo" "-Hnr" "FIXME"
                          (exampleWorld exampleStore false)))
     = exampleStore.
Proof.
  destruct (save_existing_name
              joinSlash "todo" "-Hnr" "FIXME" "/home/u/.gf/todo.json"
              (exampleWorld exampleStore false))
    as (_ & Hf & Hc); [reflexivity | eexists; reflexivity |].
  split; [apply Hc; discriminate | exact Hf].
Defined.

(** C9 as stated fails for a save with an empty pattern string: the name
    exists, and the error is that of the empty pattern, not the name
    collision. *)
Lemma save_existing_name_empty_pattern :
  savePattern joinSlash "todo" "-Hnr" "" (exampleWorld exampleStore false)
  = (Some PatternEmpty, exampleWorld exampleStore false)
  /\ ~ (forall Join name flags pat path w,
          patternPath Join name w = Some path ->
          is_Some (fs w !! path) ->
          fst (savePattern Join name flags pat w) = Some NameCollision).
Proof.
  split; [reflexivity|]. intros H.
  specialize (H joinSlash "todo" "-Hnr" "" "/home/u/.gf/todo.json"
                (exampleWorld exampleStore false) eq_refl
                ltac:(eexists; reflexivity)).
  discriminate H.
Qed.

(** C10: a save with an empty name or an empty pattern string returns an
    error and leaves the world as it is: it makes no call, so it neither
    resolves the pattern directory nor creates a file; [main] then only
    reports the error. *)
Theorem save_rejects_empty
        Join Quote Glob (c : cli) (name flags pat : string) (w : world) :
  name = "" \/ pat = "" ->
  savePattern Join name flags pat w =
  (Some (if String.eqb name "" then NameEmpty else PatternEmpty), w)
  /\ (listMode c = false -> saveMode c = true ->
      Arg c 0 = name -> Arg c 1 = flags -> Arg c 2 = pat ->
      main Join Quote Glob c w =
      (tt, emit (Stderr (if String.eqb name "" then NameEmpty
                         else PatternEmpty)) w)).
Proof.
  intros H.
  assert (Hs : savePattern Join name flags pat w =
               (Some (if String.eqb name "" then NameEmpty
                      else PatternEmpty), w)).
  { unfold savePattern. destruct (String.eqb name "") eqn:E1;
      [reflexivity|].
    destruct H as [-> | ->]; [discriminate E1 | reflexivity]. }
  split; [exact Hs|].
  intros Hl Hsv <- <- <-. unfold main. rewrite Hl, Hsv.
  unfold bind. rewrite Hs. reflexivity.
Qed.

Lemma save_rejects_empty_witness :
  savePattern joinSlash "" "-Hnr" "FIXME" (exampleWorld exampleStore false)
  = (Some NameEmpty, exampleWorld exampleStore false)
  /\ savePattern joinSlash "new" "-Hnr" "" (exampleWorld exampleStore false)
     = (Some PatternEmpty, exampleWorld exampleStore false)
  /\ main joinSlash quotePlain globNone
          {| saveMode := true; listMode := false; dumpMode := false;
             args := ["new"; "-Hnr"] |}
          (exampleWorld exampleStore false)
     = (tt, emit (Stderr PatternEmpty) (exampleWorld exampleStore false)).
Proof.
  destruct (save_rejects_empty
              joinSlash quotePlain globNone
              {| saveMode := true; listMode := false; dumpMode := false;
                 args := ["new"; "-Hnr"] |}
              "" "-Hnr" "FIXME" (exampleWorld exampleStore false))
    as (H1 & _); [left; reflexivity|].
  destruct (save_rejects_empty
              joinSlash quotePlain globNone
              {| saveMode := true; listMode := false; dumpMode := false;
                 args := ["new"; "-Hnr"] |}
              "new" "-Hnr" "" (exampleWorld exampleStore false))
    as (H2 & H3); [right; reflexivity|].
  split; [exact H1|]. split; [exact H2|].
  apply H3; reflexivity.
Defined.

(** * Further properties *)

(** ** Fields are tokens *)

Lemma bytesOf_app (a b : list (N * string)) :
  bytesOf (a ++ b) = bytesOf a +:+ bytesOf b.
Proof.
  induction a as [|[r x] a IH]; [reflexivity|].
  cbn [app bytesOf fold_right]. fold (bytesOf (a ++ b)) (bytesOf a).
  now rewrite IH, append_assoc.
Qed.

Lemma range_nil (s : string) : utf8.range s = [] -> s = "".
Proof.
  destruct s as [|c s]; [reflexivity|].
  rewrite range_cons by discriminate. discriminate.
Qed.

(** What remains of the runes of a string after some of them are the
    runes of what remains of the string. *)
Lemma range_suffix (rs1 rs2 : list (N * string)) (s : string) :
  utf8.range s = rs1 ++ rs2 ->
  exists s', utf8.range s' = rs2 /\ s = bytesOf rs1 +:+ s'.
Proof.
  revert s; induction rs1 as [|x rs1 IH]; intros s H.
  - exists s. split; [exact H | reflexivity].
  - destruct s as [|c s]; [discriminate H|].
    rewrite range_cons in H by discriminate.
    cbn [app] in H. injection H as Hx Hr.
    destruct (IH _ Hr) as (s' & Hs' & Hd).
    exists s'. split; [exact Hs'|].
    subst x. cbn [bytesOf fold_right]. fold (bytesOf rs1).
    rewrite append_assoc, <- Hd. symmetry; apply take_drop.
Qed.

(** Runes that end at a space, or at the end of the string, are the runes
    of their own bytes. *)
Lemma range_prefix (rs1 rs2 : list (N * string)) (s : string) :
  utf8.range s = rs1 ++ rs2 ->
  match rs2 with
  | [] => true
  | (r, _) :: _ => unicode.IsSpace r
  end = true ->
  utf8.range (bytesOf rs1) = rs1.
Proof.
  intros H Hsp. destruct (range_suffix _ _ _ H) as (s' & Hs' & Hs).
  destruct rs2 as [|[r b] rs2].
  - apply range_nil in Hs'. subst s'. rewrite append_empty_r in Hs.
    rewrite <- Hs, H. apply app_nil_r.
  - destruct s' as [|c y]; [discriminate Hs'|].
    assert (Hc : starter c = true).
    { pose proof (range_cons (String c y) ltac:(discriminate)) as Hd.
      rewrite Hs' in Hd.
      assert (Hr : fst (utf8.DecodeRuneInString (String c y)) = r)
        by congruence.
      apply (space_starter c y). now rewrite Hr. }
    rewrite Hs, range_append_starter, Hs' in H by exact Hc.
    now apply app_inv_tail in H.
Qed.

Lemma token_bytesOf (acc : list (N * string)) :
  acc <> [] -> noSpace acc = true -> utf8.range (bytesOf acc) = acc ->
  token (bytesOf acc) = true.
Proof.
  intros Hne Hns Hr. unfold token. rewrite Hr, Hns, andb_true_r.
  destruct (String.eqb_spec (bytesOf acc) "") as [E|]; [|reflexivity].
  rewrite E in Hr. now destruct acc.
Qed.

Lemma fieldsLoop_tokens (rs acc : list (N * string)) (s : string) :
  utf8.range s = acc ++ rs -> noSpace acc = true ->
  forallb token (strings.fieldsLoop unicode.IsSpace rs (fieldOf acc)) = true.
Proof.
  revert acc s; induction rs as [|[r b] rs IH]; intros acc s H Hns.
  - destruct acc as [|x acc]; [reflexivity|].
    cbn [fieldOf strings.fieldsLoop forallb]. rewrite andb_true_r.
    apply token_bytesOf; [discriminate | exact Hns |].
    now apply (range_prefix _ [] s).
  - cbn [strings.fieldsLoop]. destruct (unicode.IsSpace r) eqn:Hr.
    + assert (Hrest : forallb token
                        (strings.fieldsLoop unicode.IsSpace rs None) = true).
      { replace (acc ++ (r, b) :: rs) with ((acc ++ [(r, b)]) ++ rs) in H
          by now rewrite <- app_assoc.
        destruct (range_suffix _ _ _ H) as (s' & Hs' & _).
        now apply (IH [] s'). }
      destruct acc as [|x acc]; [exact Hrest|].
      cbn [fieldOf forallb]. rewrite Hrest, andb_true_r.
      apply token_bytesOf; [discriminate | exact Hns |].
      apply (range_prefix _ ((r, b) :: rs) s); [exact H | exact Hr].
    + replace (Some (match fieldOf acc with
                     | Some w => w +:+ b
                     | None => b
                     end))
        with (fieldOf (acc ++ [(r, b)])).
      * apply (IH (acc ++ [(r, b)]) s); [now rewrite <- app_assoc|].
        unfold noSpace in *. rewrite forallb_app, Hns. cbn. now rewrite Hr.
      * destruct acc as [|x acc].
        -- cbn. now rewrite append_empty_r.
        -- change (fieldOf ((x :: acc) ++ [(r, b)]))
             with (Some (bytesOf ((x :: acc) ++ [(r, b)]))).
           rewrite bytesOf_app. cbn [fieldOf bytesOf fold_right].
           now rewrite append_empty_r.
Qed.

(** Every field is a token: it is not empty and holds no space. *)
Lemma Fields_tokens (s : string) : forallb token (strings.Fields s) = true.
Proof.
  unfold strings.Fields, strings.FieldsFunc.
  now apply (fieldsLoop_tokens (utf8.range s) [] s).
Qed.

Lemma fieldsLoop_valid (rs acc : list (N * string)) (s : string) :
  utf8.range s = acc ++ rs -> noSpace acc = true -> valid s = true ->
  forallb valid (strings.fieldsLoop unicode.IsSpace rs (fieldOf acc)) = true.
Proof.
  unfold valid at 1. revert acc s; induction rs as [|[r b] rs IH];
    intros acc s H Hns Hv; rewrite H, forallb_app in Hv;
    apply andb_prop in Hv as [Hva Hvr].
  - destruct acc as [|x acc]; [reflexivity|].
    cbn [fieldOf strings.fieldsLoop forallb]. rewrite andb_true_r.
    unfold valid. now rewrite (range_prefix _ [] s).
  - cbn [strings.fieldsLoop]. destruct (unicode.IsSpace r) eqn:Hr.
    + assert (Hrest : forallb valid
                        (strings.fieldsLoop unicode.IsSpace rs None) = true).
      { replace (acc ++ (r, b) :: rs) with ((acc ++ [(r, b)]) ++ rs) in H
          by now rewrite <- app_assoc.
        destruct (range_suffix _ _ _ H) as (s' & Hs' & _).
        apply (IH [] s'); [exact Hs' | reflexivity |].
        unfold valid. rewrite Hs'. cbn [forallb] in Hvr.
        now apply andb_prop in Hvr as [_ Hvr]. }
      destruct acc as [|x acc]; [exact Hrest|].
      cbn [fieldOf forallb]. rewrite Hrest, andb_true_r.
      unfold valid.
      rewrite (range_prefix _ ((r, b) :: rs) s); [exact Hva | exact H |].
      exact Hr.
    + replace (Some (match fieldOf acc with
                     | Some w => w +:+ b
                     | None => b
                     end))
        with (fieldOf (acc ++ [(r, b)])).
      * apply (IH (acc ++ [(r, b)]) s); [now rewrite <- app_assoc| |].
        -- unfold noSpace in *. rewrite forallb_app, Hns. cbn.
           now rewrite Hr.
        -- unfold valid. rewrite H, forallb_app, Hva. exact Hvr.
      * destruct acc as [|x acc].
        -- cbn. now rewrite append_empty_r.
        -- change (fieldOf ((x :: acc) ++ [(r, b)]))
             with (Some (bytesOf ((x :: acc) ++ [(r, b)]))).
           rewrite bytesOf_app. cbn [fieldOf bytesOf fold_right].
           now rewrite append_empty_r.
Qed.

(** The fields of valid UTF-8 are valid UTF-8. *)
Lemma Fields_valid (s : string) :
  valid s = true -> forallb valid (strings.Fields s) = true.
Proof.
  intros H. unfold strings.Fields, strings.FieldsFunc.
  now apply (fieldsLoop_valid (utf8.range s) [] s).
Qed.

(** The JSON encoder changes no valid string. *)
Lemma encoded_valid (s : string) : valid s = true -> encoded s = s.
Proof.
  unfold valid, encoded. rewrite <- (bytesOf_range s) at 3.
  induction (utf8.range s) as [|[r b] rs IH]; [reflexivity|].
  cbn [forallb fold_right bytesOf]. fold (bytesOf rs).
  intros H. apply andb_prop in H as [Hr H].
  apply negb_true_iff in Hr. rewrite Hr. now rewrite IH.
Qed.

Lemma map_encoded_valid (l : list string) :
  forallb valid l = true -> map encoded l = l.
Proof.
  induction l as [|s l IH]; [reflexivity|]. cbn [forallb map].
  intros H. apply andb_prop in H as [Hs H].
  now rewrite encoded_valid, IH.
Qed.

Lemma storeElems_strings (l : list string) :
  storeElems (map JString l) = Some l.
Proof.
  induction l as [|s l IH]; [reflexivity|].
  cbn [map storeElems storeString]. now rewrite IH.
Qed.

(** ** Decoding and encoding *)






Lemma marshal_round_trip_raw (p : pattern) :
  Decode (JSON (DocObject (Marshal p))) zero = Ok (reread p).
Proof.
  cbn [Decode]. rewrite UnmarshalJSON_object. unfold Marshal, reread.
  destruct p as [fl pat pats eng].
  cbn [m_flags m_pattern m_patterns m_engine zero
       Flags Pattern Patterns Engine].
  assert (Hs : forall s,
             storeString "" (if String.eqb s "" then None
                             else Some (JString (encoded s)))
             = Some (encoded s)).
  { intros s. destruct (String.eqb_spec s "") as [-> |]; reflexivity. }
  rewrite !Hs.
  replace (storeStrings [] match pats with
                           | [] => None
                           | _ :: _ =>
                             Some (JArray (map (fun s => JString (encoded s))
                                               pats))
                           end)
    with (Some (map encoded pats)).
  2:{ destruct pats as [|x pats]; [reflexivity|].
      cbn [storeStrings]. rewrite <- (map_map encoded JString).
      now rewrite storeElems_strings. }
  destruct fl as [|x fl]; [reflexivity|].
  rewrite <- (map_map encoded JString), stringElems_strings.
  reflexivity.
Qed.

(** What the encoder writes for a record decodes to the record, each
    string as the encoder reads back: every byte that is not part of a
    valid UTF-8 sequence replaced by U+FFFD.  A record whose strings are
    valid UTF-8 comes back as it is. *)
Theorem marshal_round_trip (p : pattern) :
  Decode (JSON (DocObject (Marshal p))) zero = Ok (reread p)
  /\ (valid (Pattern p) = true -> valid (Engine p) = true ->
      forallb valid (Flags p) = true -> forallb valid (Patterns p) = true ->
      Decode (JSON (DocObject (Marshal p))) zero = Ok p).
Proof.
  assert (H := marshal_round_trip_raw p).
  split; [exact H|].
  intros Hp He Hf Hps. rewrite H. unfold reread.
  rewrite !encoded_valid, !map_encoded_valid by assumption.
  now destruct p.
Qed.

Lemma marshal_round_trip_witness :
  Decode (JSON (DocObject (Marshal (Build_pattern ["-H"; "-n"] "TODO" [] ""))))
         zero
  = Ok (Build_pattern ["-H"; "-n"] "TODO" [] "")
  /\ Decode (JSON (DocObject
                     (Marshal (Build_pattern
                                 [] ("a" +:+ String (ascii_of_nat 255) "b")
                                 [] "rg"))))
            zero
     = Ok (Build_pattern [] ("a" +:+ replacement +:+ "b") [] "rg").
Proof.
  split.
  - apply (proj2 (marshal_round_trip
                    (Build_pattern ["-H"; "-n"] "TODO" [] "")));
      reflexivity.
  - apply (proj1 (marshal_round_trip
                    (Build_pattern
                       [] ("a" +:+ String (ascii_of_nat 255) "b") [] "rg"))).
Defined.

(** The string form of the flags is read as its fields: it decodes as
    the list of its fields does, and as the fields joined by single
    blanks do; the flags of the record are then the fields, none of them
    empty, none of them with a space in it. *)
Theorem string_flags_are_fields (o : object) (v : string) :
  let decode flags := Decode (JSON (DocObject (withFlags flags o))) zero in
  decode (Some (JString v))
  = decode (Some (JArray (map JString (strings.Fields v))))
  /\ decode (Some (JString v))
     = decode (Some (JString (strings.Join (strings.Fields v) " ")))
  /\ (forall p, decode (Some (JString v)) = Ok p ->
                Flags p = strings.Fields v
                /\ forallb token (Flags p) = true).
Proof.
  cbn zeta. cbn [Decode]. rewrite !UnmarshalJSON_object.
  cbn [withFlags m_flags m_pattern m_patterns m_engine zero
       Flags Pattern Patterns Engine].
  rewrite stringElems_strings.
  assert (Hf : (if String.eqb v "" then [] else strings.Fields v)
               = strings.Fields v).
  { destruct (String.eqb_spec v "") as [-> |]; reflexivity. }
  assert (Hj : (if String.eqb (strings.Join (strings.Fields v) " ") ""
                then []
                else strings.Fields (strings.Join (strings.Fields v) " "))
               = strings.Fields v).
  { rewrite Fields_Join by apply Fields_tokens.
    destruct (String.eqb_spec (strings.Join (strings.Fields v) " ") "")
      as [E|]; [|reflexivity].
    assert (Ht := Fields_tokens v).
    destruct (strings.Fields v) as [|t ts]; [reflexivity|].
    cbn [forallb] in Ht. apply andb_prop in Ht as [Ht _].
    apply String.eqb_eq in E.
    rewrite (token_not_empty t ts " " Ht) in E. discriminate E. }
  rewrite Hf, Hj.
  destruct (storeString "" (m_pattern o)) as [pat|];
    [|repeat split; discriminate].
  destruct (storeStrings [] (m_patterns o)) as [pats|];
    [|repeat split; discriminate].
  destruct (storeString "" (m_engine o)) as [eng|];
    [|repeat split; discriminate].
  repeat split; inversion H; subst; cbn [Flags]; try reflexivity.
  apply Fields_tokens.
Qed.

Lemma string_flags_are_fields_witness :
  Decode (JSON (DocObject
                  (withFlags (Some (JString ("  -H" +:+ String (ascii_of_nat 9)
                                                    "-n ")))
                             todoObject)))
         zero
  = Ok (Build_pattern ["-H"; "-n"] "TODO" [] "")
  /\ forallb token ["-H"; "-n"] = true.
Proof.
  destruct (string_flags_are_fields
              todoObject ("  -H" +:+ String (ascii_of_nat 9) "-n "))
    as (_ & _ & H).
  destruct (H (Build_pattern ["-H"; "-n"] "TODO" [] "") eq_refl) as [_ Ht].
  split; [reflexivity | exact Ht].
Defined.

(** Flags that are absent, [null], an empty list, the empty string or a
    string of spaces only all decode alike: the record has no flags. *)
Theorem blank_flags_are_no_flags (o : object) (v : string) :
  spaces v = true ->
  let decode flags := Decode (JSON (DocObject (withFlags flags o))) zero in
  decode (Some (JString v)) = decode None
  /\ decode (Some JNull) = decode None
  /\ decode (Some (JArray [])) = decode None
  /\ (forall p, decode None = Ok p -> Flags p = []).
Proof.
  intros Hv. cbn zeta. cbn [Decode]. rewrite !UnmarshalJSON_object.
  cbn [withFlags m_flags m_pattern m_patterns m_engine zero
       Flags Pattern Patterns Engine stringElems].
  assert (Hf : strings.Fields v = []).
  { rewrite <- (append_empty_r v). now rewrite Fields_spaces. }
  rewrite Hf.
  destruct (storeString "" (m_pattern o)) as [pat|];
    [|repeat split; discriminate].
  destruct (storeStrings [] (m_patterns o)) as [pats|];
    [|repeat split; discriminate].
  destruct (storeString "" (m_engine o)) as [eng|];
    [|repeat split; discriminate].
  repeat split; [now destruct (String.eqb v "")|].
  intros p H. now inversion H.
Qed.

Lemma blank_flags_are_no_flags_witness :
  Decode (JSON (DocObject
                  (withFlags (Some (JString (" " +:+ String (ascii_of_nat 9)
                                                 " ")))
                             todoObject)))
         zero
  = Ok (Build_pattern [] "TODO" [] "").
Proof.
  destruct (blank_flags_are_no_flags
              todoObject (" " +:+ String (ascii_of_nat 9) " "))
    as (H & _); [reflexivity|].
  rewrite H. reflexivity.
Defined.

(** ** Saving *)

Lemma savePattern_result Join (name flags pat : string) (w : world) :
  name <> "" -> pat <> "" ->
  savePattern Join name flags pat w =
  match patternPath Join name w with
  | None => (Some DirectoryResolutionFailure, emits (dirCalls Join w) w)
  | Some path =>
    let w1 := emits (dirCalls Join w ++ [CallOpenFile path]) w in
    match fs w !! path with
    | Some _ => (Some NameCollision, w1)
    | None =>
      if creatable w path then
        if writable w
        then (None,
              set_fs (<[path := File (JSON (DocObject
                                              (Marshal (saved flags pat))))]>
                        (fs w))
                     (emit (CallWrite path) w1))
        else (Some WriteFailure,
              set_fs (<[path := File NotJSON]> (fs w))
                     (emit (CallWrite path) w1))
      else (Some (CreateFailure ErrOther), w1)
    end
  end.
Proof.
  intros Hn Hp. rewrite savePattern_checked by assumption.
  destruct (patternPath Join name w) as [path|]; [|reflexivity].
  cbv zeta. destruct (fs w !! path); [reflexivity|].
  destruct (creatable w path); [|reflexivity].
  unfold bind, Encode, ret.
  set (w1 := emits (dirCalls Join w ++ [CallOpenFile path]) w).
  assert (Hw : writable w1 = writable w) by apply emits_frame.
  cbn [writable emit set_fs]. rewrite Hw.
  destruct (writable w); [|reflexivity].
  cbn [fs set_fs emit]. now rewrite insert_insert_eq.
Qed.

(** A save succeeds exactly when the name and the pattern string are not
    empty, the pattern directory is found, the path of the pattern names
    nothing yet, the file can be created there and the write succeeds;
    the store is then the old one with the encoded record at that
    path. *)
Theorem save_succeeds_iff Join (name flags pat : string) (w : world) :
  (fst (savePattern Join name flags pat w) = None <->
   name <> "" /\ pat <> ""
   /\ exists path, patternPath Join name w = Some path
                   /\ fs w !! path = None
                   /\ creatable w path = true /\ writable w = true)
  /\ (forall path,
        fst (savePattern Join name flags pat w) = None ->
        patternPath Join name w = Some path ->
        fs (snd (savePattern Join name flags pat w)) =
        <[path := File (JSON (DocObject (Marshal (saved flags pat))))]>
          (fs w)).
Proof.
  destruct (String.eqb_spec name "") as [-> | Hn].
  { unfold savePattern; cbn. split; [split|]; try discriminate.
    intros (H & _); congruence. }
  destruct (String.eqb_spec pat "") as [-> | Hp].
  { unfold savePattern. apply String.eqb_neq in Hn as ->. cbn.
    split; [split|]; try discriminate. intros (_ & H & _); congruence. }
  rewrite savePattern_result by assumption.
  destruct (patternPath Join name w) as [path|].
  2:{ cbn. split; [split|]; try discriminate.
      intros (_ & _ & q & H & _); discriminate. }
  cbv zeta. destruct (fs w !! path) eqn:Hf.
  { cbn. split; [split|]; try discriminate.
    intros (_ & _ & q & H & H' & _). injection H as <-. congruence. }
  destruct (creatable w path) eqn:Hc.
  2:{ cbn. split; [split|]; try discriminate.
      intros (_ & _ & q & H & _ & H' & _). injection H as <-. congruence. }
  destruct (writable w) eqn:Hw.
  2:{ cbn. split; [split|]; try discriminate.
      intros (_ & _ & q & H & _ & _ & H'). discriminate. }
  cbn [fst snd]. split; [split|].
  - intros _. repeat split; try assumption. exists path. auto.
  - reflexivity.
  - intros q _ H. injection H as <-. reflexivity.
Qed.

Lemma save_succeeds_iff_witness :
  fst (savePattern joinSlash "new" "-H  -n" "FIXME"
                   (exampleWorld exampleStore false)) = None
  /\ fs (snd (savePattern joinSlash "new" "-H  -n" "FIXME"
                          (exampleWorld exampleStore false)))
     = <["/home/u/.gf/new.json" :=
           File (JSON (DocObject
                         {| m_flags := Some (JArray [JString "-H";
                                                     JString "-n"]);
                            m_pattern := Some (JString "FIXME");
                            m_patterns := None; m_engine := None |}))]>
         exampleStore.
Proof.
  destruct (save_succeeds_iff joinSlash "new" "-H  -n" "FIXME"
                              (exampleWorld exampleStore false))
    as (Hiff & Hfs).
  assert (H : fst (savePattern joinSlash "new" "-H  -n" "FIXME"
                               (exampleWorld exampleStore false)) = None).
  { apply Hiff. repeat split; try discriminate.
    exists "/home/u/.gf/new.json". repeat split. }
  split; [exact H|].
  apply (Hfs "/home/u/.gf/new.json" H). reflexivity.
Defined.

Lemma savePattern_store Join (name flags pat : string) (w : world) :
  (forall q n, fs w !! q = Some n ->
               fs (snd (savePattern Join name flags pat w)) !! q = Some n)
  /\ (forall q, patternPath Join name w <> Some q ->
                fs (snd (savePattern Join name flags pat w)) !! q
                = fs w !! q).
Proof.
  destruct (String.eqb_spec name "") as [-> | Hn].
  { unfold savePattern; cbn. auto. }
  destruct (String.eqb_spec pat "") as [-> | Hp].
  { unfold savePattern. apply String.eqb_neq in Hn as ->. cbn. auto. }
  rewrite savePattern_result by assumption.
  destruct (patternPath Join name w) as [path|];
    [|cbn [snd]; rewrite fs_emits; auto].
  cbv zeta. destruct (fs w !! path) eqn:Hf;
    [cbn [snd]; rewrite fs_emits; auto|].
  destruct (creatable w path); [|cbn [snd]; rewrite fs_emits; auto].
  destruct (writable w); cbn [snd fs set_fs]; split; intros q;
    try (intros n Hq; rewrite lookup_insert_ne; [exact Hq | congruence]);
    intros Hq; apply lookup_insert_ne; congruence.
Qed.

Lemma getPatternDir_result Join (w : world) :
  fst (getPatternDir Join w) =
  match home w with
  | None => None
  | Some h =>
    match fs w !! Join h ".config/gf" with
    | Some _ => Some (Join h ".config/gf")
    | None => Some (Join h ".gf")
    end
  end.
Proof.
  unfold getPatternDir, bind, user_Current, os_Stat, ret.
  destruct w as [h m cr wr sp t]; simpl.
  destruct h as [h|]; simpl; [|reflexivity].
  now destruct (m !! Join h ".config/gf").
Qed.

(** The pattern directory depends on the home directory and on whether
    its [.config/gf] names something, and on nothing else. *)
Lemma patternPath_same Join (name : string) (w w' : world) :
  home w' = home w ->
  (forall h, home w = Some h ->
             (fs w' !! Join h ".config/gf" = None <->
              fs w !! Join h ".config/gf" = None)) ->
  patternPath Join name w' = patternPath Join name w.
Proof.
  intros Hh Hc. unfold patternPath. rewrite !getPatternDir_result, Hh.
  destruct (home w) as [h|]; [|reflexivity].
  specialize (Hc h eq_refl).
  destruct (fs w' !! Join h ".config/gf") eqn:E1;
    destruct (fs w !! Join h ".config/gf") eqn:E2; try reflexivity.
  - destruct Hc as [_ Hc]. now specialize (Hc eq_refl).
  - destruct Hc as [Hc _]. now specialize (Hc eq_refl).
Qed.

Lemma dirCalls_same Join (w w' : world) :
  home w' = home w -> dirCalls Join w' = dirCalls Join w.
Proof. unfold dirCalls. now intros ->. Qed.

Lemma outputs_emits (es : list event) (w : world) :
  outputs es = [] -> outputs (trace (emits es w)) = outputs (trace w).
Proof.
  intros H. now rewrite trace_emits, outputs_app, H, app_nil_r.
Qed.

(** A pattern that was saved is found by a run of its name, which runs
    [ugrep] with the fields of the flags string, then the pattern string,
    then the target path if standard input is not a pipe.  (The flags
    and the pattern string are valid UTF-8, and the pattern file is not
    the path [.config/gf] of the home directory itself.) *)
Theorem save_then_run
        Join Quote Glob (c : cli) (name flags pat path h : string)
        (w : world) :
  name <> "" -> pat <> "" ->
  valid flags = true -> valid pat = true ->
  home w = Some h ->
  patternPath Join name w = Some path ->
  path <> Join h ".config/gf" ->
  fs w !! path = None -> creatable w path = true -> writable w = true ->
  listMode c = false -> saveMode c = false -> dumpMode c = false ->
  Arg c 0 = name ->
  fst (savePattern Join name flags pat w) = None
  /\ loads Join c (snd (savePattern Join name flags pat w)) path
           (saved flags pat)
  /\ outputs (trace (snd (main Join Quote Glob c
                               (snd (savePattern Join name flags pat w)))))
     = outputs (trace w)
         ++ [Run "ugrep"
                 (strings.Fields flags ++ [pat]
                    ++ targetArg (target c) (stdin_pipe w))].
Proof.
  intros Hn Hp Hvf Hvp Hh Hpath Hcfg Hfree Hcr Hwr Hl Hs Hd Ha.
  rewrite savePattern_result by assumption.
  rewrite Hpath. cbv zeta. rewrite Hfree, Hcr, Hwr. cbn [fst snd].
  set (X := File (JSON (DocObject (Marshal (saved flags pat))))).
  set (es := dirCalls Join w ++ [CallOpenFile path]).
  set (w' := set_fs (<[path := X]> (fs w)) (emit (CallWrite path) (emits es w))).
  destruct (emits_frame es w) as (Hh1 & _ & _ & _ & Hp1 & Ht1).
  assert (Hh' : home w' = home w) by exact Hh1.
  assert (Hf' : fs w' = <[path := X]> (fs w)) by reflexivity.
  assert (Hp' : stdin_pipe w' = stdin_pipe w) by exact Hp1.
  assert (Ht' : outputs (trace w') = outputs (trace w)).
  { unfold w'. cbn [trace set_fs emit]. rewrite Ht1, !outputs_app.
    unfold es. rewrite outputs_app, outputs_dirCalls. cbn.
    now rewrite !app_nil_r. }
  assert (Hpp : patternPath Join name w' = Some path).
  { rewrite <- Hpath. apply patternPath_same; [exact Hh'|].
    intros h0 H0. rewrite Hh in H0. injection H0 as <-.
    rewrite Hf', lookup_insert_ne by exact Hcfg. reflexivity. }
  assert (Hdec : Decode (JSON (DocObject (Marshal (saved flags pat)))) zero
                 = Ok (saved flags pat)).
  { assert (Hr := marshal_round_trip_raw (saved flags pat)).
    rewrite Hr. unfold reread, saved. cbn [Flags Pattern Patterns Engine].
    rewrite (encoded_valid pat), map_encoded_valid
      by (assumption || now apply Fields_valid).
    reflexivity. }
  assert (Hloads : loads Join c w' path (saved flags pat)).
  { repeat split; try assumption; [now rewrite Ha|].
    exists X. split; [|exact Hdec].
    rewrite Hf'. apply lookup_insert_eq. }
  split; [reflexivity|]. split; [exact Hloads|].
  rewrite (main_synthesize _ _ _ _ _ _ _ Hloads), Hd, synthesize_emits.
  assert (He : effectivePattern (saved flags pat) = Some pat).
  { unfold effectivePattern, saved. cbn [Pattern].
    apply String.eqb_neq in Hp. now rewrite Hp. }
  rewrite He. cbn [snd].
  rewrite realArgs_single by reflexivity.
  destruct (opened_frame Join path w') as (Hpipe & _ & Hout).
  rewrite trace_emits, outputs_app, Hout, Ht', Hpipe, Hp'.
  reflexivity.
Qed.

Lemma save_then_run_witness :
  fst (savePattern joinSlash "new" "-H  -n" "FIXME"
                   (exampleWorld exampleStore false)) = None
  /\ outputs (trace (snd (main joinSlash quotePlain globNone
                               (exampleRun false ["new"; "src"])
                               (snd (savePattern
                                       joinSlash "new" "-H  -n" "FIXME"
                                       (exampleWorld exampleStore false))))))
     = [Run "ugrep" ["-H"; "-n"; "FIXME"; "src"]].
Proof.
  destruct (save_then_run
              joinSlash quotePlain globNone (exampleRun false ["new"; "src"])
              "new" "-H  -n" "FIXME" "/home/u/.gf/new.json" "/home/u"
              (exampleWorld exampleStore false))
    as (H1 & _ & H3);
    try reflexivity; try discriminate.
  split; [exact H1 | exact H3].
Defined.



(** ** Running *)

Lemma emit_emits (e : event) (es : list event) (w : world) :
  emit e (emits es w) = emits (es ++ [e]) w.
Proof. now rewrite emits_app. Qed.


Lemma main_run Join Quote Glob (c : cli) (w : world) :
  listMode c = false -> saveMode c = false ->
  main Join Quote Glob c w =
  match patternPath Join (Arg c 0) w with
  | None => (tt, emits (dirCalls Join w ++ [Stderr DirectoryResolutionFailure])
                       w)
  | Some filename =>
    match fs w !! filename with
    | None => (tt, emits (dirCalls Join w
                            ++ [CallOpen filename; Stderr NoSuchPattern]) w)
    | Some n =>
      match Decode (contentOf n) zero with
      | Err _ => (tt, emits (dirCalls Join w
                               ++ [CallOpen filename;
                                   Stderr (MalformedRecord filename)]) w)
      | Panic => (tt, emits (dirCalls Join w
                               ++ [CallOpen filename; Panicked]) w)
      | Ok pat =>
        synthesize Quote (dumpMode c) filename (target c) pat
                   (opened Join filename w)
      end
    end
  end.
Proof.
  intros Hl Hs.
  destruct (patternPath Join (Arg c 0) w) as [filename|] eqn:Hp.
  - destruct (fs w !! filename) as [n|] eqn:Hf.
    + rewrite (main_loaded _ _ _ _ _ _ _ Hl Hs Hp Hf). cbv zeta.
      destruct (Decode (contentOf n) zero); try reflexivity;
        now rewrite emit_emits, <- app_assoc.
    + unfold main, patternPath in *. rewrite Hl, Hs.
      unfold bind at 1. assert (Hd := getPatternDir_emits Join w).
      destruct (getPatternDir Join w) as [d w1]. simpl in Hp, Hd. subst w1.
      destruct d as [d|]; [|discriminate]. injection Hp as <-.
      unfold bind, os_Open. rewrite fs_emits, Hf. unfold log.
      now rewrite !emit_emits, <- app_assoc.
  - unfold main, patternPath in *. rewrite Hl, Hs.
    unfold bind at 1. assert (Hd := getPatternDir_emits Join w).
    destruct (getPatternDir Join w) as [d w1]. simpl in Hp, Hd. subst w1.
    destruct d as [d|]; [discriminate|]. unfold log.
    now rewrite emit_emits.
Qed.



(** A pattern file that holds the JSON value [null] makes a run panic:
    nothing is reported, printed or run. *)
Theorem null_record_panics
        Join Quote Glob (c : cli) (filename : string) (w : world) :
  listMode c = false -> saveMode c = false ->
  patternPath Join (Arg c 0) w = Some filename ->
  fs w !! filename = Some (File (JSON DocNull)) ->
  main Join Quote Glob c w =
  (tt, emits (dirCalls Join w ++ [CallOpen filename; Panicked]) w).
Proof.
  intros Hl Hs Hp Hf. now rewrite (main_run _ _ _ _ _ Hl Hs), Hp, Hf.
Qed.

Lemma null_record_panics_witness :
  outputs (trace (snd (main joinSlash quotePlain globNone
                            (exampleRun false ["null"])
                            (exampleWorld
                               (<["/home/u/.gf/null.json" :=
                                    File (JSON DocNull)]> exampleStore)
                               false))))
  = [Panicked].
Proof.
  rewrite (null_record_panics
             joinSlash quotePlain globNone (exampleRun false ["null"])
             "/home/u/.gf/null.json"
             (exampleWorld
                (<["/home/u/.gf/null.json" := File (JSON DocNull)]>
                   exampleStore) false));
    reflexivity.
Defined.

Lemma realArgs_piped (operator : string) (pat : pattern)
      (pattern files files' : string) :
  realArgs operator pat pattern files true
  = realArgs operator pat pattern files' true.
Proof. unfold realArgs. cbn [negb andb]. reflexivity. Qed.

(** When standard input is a pipe, a run that executes the command does
    the same whatever target path it is given, or none. *)
Theorem piped_run_ignores_target Join Quote Glob (c c' : cli) (w : world) :
  stdin_pipe w = true ->
  listMode c = false -> saveMode c = false -> dumpMode c = false ->
  listMode c' = false -> saveMode c' = false -> dumpMode c' = false ->
  Arg c 0 = Arg c' 0 ->
  main Join Quote Glob c w = main Join Quote Glob c' w.
Proof.
  intros Hpipe Hl Hs Hd Hl' Hs' Hd' Ha.
  rewrite (main_run _ _ _ _ _ Hl Hs), (main_run _ _ _ _ _ Hl' Hs').
  rewrite <- Ha, Hd, Hd'.
  destruct (patternPath Join (Arg c 0) w) as [filename|]; [|reflexivity].
  destruct (fs w !! filename) as [n|]; [|reflexivity].
  destruct (Decode (contentOf n) zero) as [pat| |]; try reflexivity.
  rewrite !synthesize_emits.
  destruct (opened_frame Join filename w) as (-> & _ & _). rewrite Hpipe.
  destruct (effectivePattern pat) as [pattern|]; [|reflexivity].
  now rewrite (realArgs_piped _ _ _ (target c) (target c')).
Qed.

Lemma piped_run_ignores_target_witness :
  main joinSlash quotePlain globNone (exampleRun false ["todo"; "./src"])
       (exampleWorld exampleStore true)
  = main joinSlash quotePlain globNone (exampleRun false ["todo"])
         (exampleWorld exampleStore true)
  /\ outputs (trace (snd (main joinSlash quotePlain globNone
                               (exampleRun false ["todo"; "./src"])
                               (exampleWorld exampleStore true))))
     = [Run "ugrep" ["-Hnr"; "TODO"]].
Proof.
  split; [|reflexivity].
  apply (piped_run_ignores_target
           joinSlash quotePlain globNone
           (exampleRun false ["todo"; "./src"]) (exampleRun false ["todo"])
           (exampleWorld exampleStore true)); reflexivity.
Defined.

(** ** Every mode *)

Lemma runs_app (t1 t2 : list event) : runs (t1 ++ t2) = runs t1 ++ runs t2.
Proof. apply List.filter_app. Qed.

Lemma runs_calls (es : list event) : outputs es = [] -> runs es = [].
Proof.
  induction es as [|e es IH]; [reflexivity|].
  destruct e; cbn; try discriminate; exact IH.
Qed.

Lemma getPatterns_result Join Glob (w : world) :
  getPatterns Join Glob w =
  match fst (getPatternDir Join w) with
  | None => (Err DirectoryResolutionFailure, emits (dirCalls Join w) w)
  | Some patDir =>
    (match Glob (fs w) (patDir +:+ "/*.json") with
     | None => Err GlobFailure
     | Some files =>
       match patternNames patDir files with
       | None => Panic
       | Some out => Ok out
       end
     end,
     emits (dirCalls Join w ++ [CallGlob (patDir +:+ "/*.json")]) w)
  end.
Proof.
  unfold getPatterns. unfold bind at 1.
  assert (Hd := getPatternDir_emits Join w).
  destruct (getPatternDir Join w) as [d w1]. simpl in Hd. subst w1.
  cbn [fst]. destruct d as [d|]; [|reflexivity].
  cbv zeta. rewrite emit_emits.
  destruct (emits_frame (dirCalls Join w ++ [CallGlob (d +:+ "/*.json")]) w)
    as (_ & -> & _).
  destruct (Glob (fs w) (d +:+ "/*.json")) as [files|]; [|reflexivity].
  now destruct (patternNames d files).
Qed.

Lemma savePattern_trace Join (name flags pat : string) (w : world) :
  exists es,
    trace (snd (savePattern Join name flags pat w)) = trace w ++ es
    /\ outputs es = [].
Proof.
  destruct (String.eqb_spec name "") as [-> | Hn].
  { exists []. unfold savePattern; cbn. now rewrite app_nil_r. }
  destruct (String.eqb_spec pat "") as [-> | Hp].
  { exists []. unfold savePattern. apply String.eqb_neq in Hn as ->. cbn.
    now rewrite app_nil_r. }
  rewrite savePattern_result by assumption.
  destruct (patternPath Join name w) as [path|].
  2:{ exists (dirCalls Join w). cbn [snd]. rewrite trace_emits.
      split; [reflexivity | apply outputs_dirCalls]. }
  cbv zeta.
  assert (Ho : outputs (dirCalls Join w ++ [CallOpenFile path]) = []).
  { now rewrite outputs_app, outputs_dirCalls. }
  destruct (fs w !! path);
    [|destruct (creatable w path); [destruct (writable w)|] ];
    cbn [snd trace set_fs emit]; rewrite trace_emits;
    try (eexists; split; [reflexivity | exact Ho]);
    rewrite <- app_assoc; eexists; (split; [reflexivity|]);
    rewrite outputs_app, Ho; reflexivity.
Qed.

(** What every invocation comes to: its events, of which at most one is
    an output; no command with [-list], [-save] or [-dump]; no change of
    the store without [-save]. *)
Lemma main_summary Join Quote Glob (c : cli) (w : world) :
  exists es,
    trace (snd (main Join Quote Glob c w)) = trace w ++ es
    /\ length (outputs es) <= 1
    /\ (listMode c = true \/ saveMode c = true \/ dumpMode c = true ->
        runs es = [])
    /\ (listMode c = true \/ saveMode c = false ->
        fs (snd (main Join Quote Glob c w)) = fs w).
Proof.
  destruct (listMode c) eqn:Hl.
  { unfold main. rewrite Hl. unfold bind. rewrite getPatterns_result.
    destruct (fst (getPatternDir Join w)) as [d|].
    - set (r := match Glob (fs w) (d +:+ "/*.json") with
                | Some files =>
                  match patternNames d files with
                  | Some out => Ok out
                  | None => Panic
                  end
                | None => Err GlobFailure
                end).
      destruct r as [out|e|]; unfold log; cbn [snd];
        rewrite emit_emits, trace_emits, fs_emits;
        eexists; (split; [reflexivity|]);
        rewrite !outputs_app, !runs_app, outputs_dirCalls,
          (runs_calls _ (outputs_dirCalls Join w)); cbn; auto.
    - unfold log; cbn [snd]. rewrite emit_emits, trace_emits, fs_emits.
      eexists; (split; [reflexivity|]).
      rewrite !outputs_app, !runs_app, outputs_dirCalls,
        (runs_calls _ (outputs_dirCalls Join w)); cbn; auto. }
  destruct (saveMode c) eqn:Hs.
  { unfold main. rewrite Hl, Hs. unfold bind.
    destruct (savePattern_trace Join (Arg c 0) (Arg c 1) (Arg c 2) w)
      as (es & Ht & Ho).
    destruct (savePattern Join (Arg c 0) (Arg c 1) (Arg c 2) w) as [err w1].
    cbn [snd] in Ht.
    destruct err as [e|]; unfold log, ret; cbn [snd trace emit].
    - exists (es ++ [Stderr e]). rewrite Ht, <- app_assoc.
      split; [reflexivity|].
      rewrite outputs_app, runs_app, Ho, (runs_calls _ Ho). cbn.
      repeat split; auto. intros [H|H]; discriminate H.
    - exists es. rewrite Ho, (runs_calls _ Ho). cbn.
      repeat split; auto. intros [H|H]; discriminate H. }
  rewrite (main_run _ _ _ _ _ Hl Hs).
  assert (Hc : forall tail,
             outputs (dirCalls Join w ++ tail) = outputs tail
             /\ runs (dirCalls Join w ++ tail) = runs tail).
  { intros tail. now rewrite outputs_app, runs_app, outputs_dirCalls,
                   (runs_calls _ (outputs_dirCalls Join w)). }
  destruct (patternPath Join (Arg c 0) w) as [filename|].
  2:{ cbn [snd]. rewrite trace_emits, fs_emits.
      eexists; (split; [reflexivity|]).
      destruct (Hc [Stderr DirectoryResolutionFailure]) as [-> ->].
      cbn; auto. }
  destruct (fs w !! filename) as [n|].
  2:{ cbn [snd]. rewrite trace_emits, fs_emits.
      eexists; (split; [reflexivity|]).
      destruct (Hc [CallOpen filename; Stderr NoSuchPattern]) as [-> ->].
      cbn; auto. }
  destruct (Decode (contentOf n) zero) as [pat|e|].
  2:{ cbn [snd]. rewrite trace_emits, fs_emits.
      eexists; (split; [reflexivity|]).
      destruct (Hc [CallOpen filename; Stderr (MalformedRecord filename)])
        as [-> ->].
      cbn; auto. }
  2:{ cbn [snd]. rewrite trace_emits, fs_emits.
      eexists; (split; [reflexivity|]).
      destruct (Hc [CallOpen filename; Panicked]) as [-> ->].
      cbn; auto. }
  rewrite synthesize_emits. cbn [snd]. unfold opened.
  rewrite <- emits_app, trace_emits, fs_emits, <- app_assoc.
  eexists; (split; [reflexivity|]).
  match goal with
  | |- context [dirCalls Join w ++ ?t] => destruct (Hc t) as [-> ->]
  end.
  destruct (effectivePattern pat) as [pattern|]; [|cbn; auto].
  destruct (dumpMode c); cbn; repeat split; auto.
  intros [H|[H|H] ]; discriminate H.
Qed.

(** No invocation changes what a path names already, whatever its
    arguments and whatever comes of it: a save does not, and the other
    modes change nothing at all.  A save changes no path but that of the
    pattern. *)
Theorem save_keeps_store
        Join Quote Glob (c : cli) (name flags pat : string) (w : world) :
  (forall q n, fs w !! q = Some n ->
               fs (snd (savePattern Join name flags pat w)) !! q = Some n)
  /\ (forall q, patternPath Join name w <> Some q ->
                fs (snd (savePattern Join name flags pat w)) !! q
                = fs w !! q)
  /\ (forall q n, fs w !! q = Some n ->
                  fs (snd (main Join Quote Glob c w)) !! q = Some n).
Proof.
  destruct (savePattern_store Join name flags pat w) as [H1 H2].
  split; [exact H1|]. split; [exact H2|].
  intros q n Hq.
  destruct (main_summary Join Quote Glob c w) as (_ & _ & _ & _ & Hfs).
  destruct (listMode c) eqn:Hl; [rewrite Hfs; auto|].
  destruct (saveMode c) eqn:Hs; [|rewrite Hfs; auto].
  unfold main. rewrite Hl, Hs. unfold bind.
  assert (Hk := proj1 (savePattern_store Join (Arg c 0) (Arg c 1) (Arg c 2) w)
                      q n Hq).
  destruct (savePattern Join (Arg c 0) (Arg c 1) (Arg c 2) w) as [err w1].
  cbn [snd] in Hk. now destruct err.
Qed.

Lemma save_keeps_store_witness :
  fs (snd (savePattern joinSlash "new" "-Hn" "FIXME"
                       (exampleWorld exampleStore false)))
     !! "/home/u/.gf/todo.json"
  = Some (File (JSON (DocObject todoObject)))
  /\ fs (snd (savePattern joinSlash "todo" "-Hn" "FIXME"
                          (exampleWorld exampleStore false)))
        !! "/home/u/.gf/todo.json"
     = Some (File (JSON (DocObject todoObject))).
Proof.
  split.
  - apply (proj1 (save_keeps_store
                    joinSlash quotePlain globNone (exampleRun false [])
                    "new" "-Hn" "FIXME" (exampleWorld exampleStore false))).
    reflexivity.
  - apply (proj1 (save_keeps_store
                    joinSlash quotePlain globNone (exampleRun false [])
                    "todo" "-Hn" "FIXME" (exampleWorld exampleStore false))).
    reflexivity.
Defined.


(** Only a run without [-dump] executes a command: with [-list], [-save]
    or [-dump] none is run.  Only [-save] without [-list] writes: in the
    other modes the store stays as it is.  And every invocation gives at
    most one output: a message, what it prints, or the command it
    runs. *)
Theorem modes_are_separate Join Quote Glob (c : cli) (w : world) :
  (listMode c = true \/ saveMode c = true \/ dumpMode c = true ->
   runs (trace (snd (main Join Quote Glob c w))) = runs (trace w))
  /\ (listMode c = true \/ saveMode c = false ->
      fs (snd (main Join Quote Glob c w)) = fs w)
  /\ length (outputs (trace (snd (main Join Quote Glob c w))))
     <= S (length (outputs (trace w))).
Proof.
  destruct (main_summary Join Quote Glob c w) as (es & Ht & Ho & Hr & Hfs).
  rewrite Ht, runs_app, outputs_app, length_app.
  split; [|split; [exact Hfs | lia] ].
  intros H. now rewrite (Hr H), app_nil_r.
Qed.

Lemma modes_are_separate_witness :
  runs (trace (snd (main joinSlash quotePlain globNone
                         (exampleRun true ["todo"])
                         (exampleWorld exampleStore false)))) = []
  /\ fs (snd (main joinSlash quotePlain globNone
                   {| saveMode := true; listMode := true; dumpMode := false;
                      args := ["new"; "-Hn"; "FIXME"] |}
                   (exampleWorld exampleStore false))) = exampleStore.
Proof.
  split.
  - apply (proj1 (modes_are_separate
                    joinSlash quotePlain globNone (exampleRun true ["todo"])
                    (exampleWorld exampleStore false))).
    right; right; reflexivity.
  - apply (proj1 (proj2 (modes_are_separate
                           joinSlash quotePlain globNone
                           {| saveMode := true; listMode := true;
                              dumpMode := false;
                              args := ["new"; "-Hn"; "FIXME"] |}
                           (exampleWorld exampleStore false)))).
    left; reflexivity.
Defined.

(** ** The pattern directory and the list of patterns *)










(** A run without a target path is a run with the target path ["."],
    also with [-dump]; the target path a run works with is never
    empty. *)
Theorem default_target Join Quote Glob (c c' : cli) (w : world) :
  listMode c = false -> saveMode c = false ->
  listMode c' = false -> saveMode c' = false ->
  dumpMode c = dumpMode c' ->
  Arg c 0 = Arg c' 0 -> Arg c 1 = "" -> Arg c' 1 = "." ->
  main Join Quote Glob c w = main Join Quote Glob c' w
  /\ target c = "." /\ target c' <> "".
Proof.
  intros Hl Hs Hl' Hs' Hd Ha H1 H1'.
  assert (Ht : target c = ".") by (unfold target; now rewrite H1).
  assert (Ht' : target c' = ".") by (unfold target; now rewrite H1').
  split; [|split; [exact Ht | rewrite Ht'; discriminate] ].
  rewrite (main_run _ _ _ _ _ Hl Hs), (main_run _ _ _ _ _ Hl' Hs').
  now rewrite Ha, Hd, Ht, Ht'.
Qed.

Lemma default_target_witness :
  main joinSlash quotePlain globNone (exampleRun false ["todo"])
       (exampleWorld exampleStore false)
  = main joinSlash quotePlain globNone (exampleRun false ["todo"; "."])
         (exampleWorld exampleStore false).
Proof.
  apply (default_target joinSlash quotePlain globNone
                        (exampleRun false ["todo"])
                        (exampleRun false ["todo"; "."])
                        (exampleWorld exampleStore false));
    reflexivity.
Defined.
